(** * Authentication core of the layered web service

    A shallow embedding of the authentication flow of the service:

    - [core/models/user.py]                          the [User] entity
    - [core/interfaces/repositories.py]              the [UserRepository] interface
    - [adapters/database/postgres/{models,repositories}.py]
                                                     the PostgreSQL user store
    - [utils/security.py]                            password hashing and JWT helpers
    - [core/services/auth_services.py]               [AuthService]
    - [config/settings.py]                           the settings the above read
    - [api/v1/dependencies.py], [api/v1/endpoints/{auth,users}.py],
      [api/v1/schemas.py]                            the callers of the service

    Python calls return a value or raise: they are embedded in [Result].
    The [async] methods of [AuthService] are written against the abstract
    [UserRepository]; they are embedded as programs over the repository's
    operations ([Prog]) and run against a repository implementation, which
    threads the store explicitly and records the operations performed.

    The service delegates hashing to passlib and token handling to
    python-jose.  Both libraries lie outside the repository; their documented
    behaviour is modelled in the modules [passlib] and [jose], with the
    cryptographic primitives and the base64url/JSON codecs left as
    parameters ([BcryptHandler], [JoseBackend]). *)

From stdpp Require Import base strings list gmap.
From Stdlib Require Import Ascii ZArith.

(** ** Exceptions and results *)

Inductive Exn : Type :=
| DuplicateEmailError (msg : string)  (* core.exceptions *)
| ValueError (msg : string)           (* builtins *)
| TypeError (msg : string)            (* builtins *)
| UnknownHashError                    (* passlib.exc *)
| PasslibValueError                   (* passlib.exc: raised inside a handler *)
| JWTError                            (* jose.exceptions *)
| ExpiredSignatureError               (* jose.exceptions, subclass of JWTError *)
| JWTClaimsError                      (* jose.exceptions, subclass of JWTError *)
| IntegrityError                      (* sqlalchemy.exc *)
| MultipleResultsFound                (* sqlalchemy.exc *)
| DataError.                          (* sqlalchemy.exc *)

(** [except JWTError]: the exception classes the clause catches. *)
Definition is_JWTError (e : Exn) : bool :=
  match e with
  | JWTError | ExpiredSignatureError | JWTClaimsError => true
  | _ => false
  end.

Inductive Result (A : Type) : Type :=
| Ok (a : A)
| Raise (e : Exn).
Arguments Ok {A} a.
Arguments Raise {A} e.

(** ** Time

    [datetime] values are microseconds since the epoch (UTC), [timedelta]
    values are microseconds. *)

Definition datetime := Z.
Definition timedelta := Z.

(** [timedelta(minutes=m)] *)
Definition minutes (m : Z) : timedelta := (m * 60000000)%Z.

(** [calendar.timegm(d.utctimetuple())]: whole seconds, the microseconds
    are dropped. *)
Definition timegm (d : datetime) : Z := (d / 1000000)%Z.

(** ** core/models/user.py *)

Module User.
Record t : Type := mk {
    id : option string;
    email : string;
    hashed_password : string;
    full_name : string;
    is_active : bool;
    is_superuser : bool;
    created_at : option datetime;
    updated_at : option datetime
  }.

(** [User.is_authenticated] *)
Definition is_authenticated (self : t) : bool :=
  is_active self && bool_decide (is_Some (id self)).
End User.
Abbreviation User := User.t.

(** [str(x)] of an optional string, as an f-string prints it. *)
Definition pystr (x : option string) : string :=
  match x with
  | Some s => s
  | None => "None"
  end.

(** ** config/settings.py *)

Record Settings : Type := {
  SECRET_KEY : string;
  ALGORITHM : string;
  ACCESS_TOKEN_EXPIRE_MINUTES : Z
}.

(** ** core/interfaces/repositories.py

    The operations of the abstract [UserRepository], indexed by what they
    return. *)

Inductive RepoOp : Type → Type :=
| GetById (user_id : string) : RepoOp (option User)
| GetByEmail (email : string) : RepoOp (option User)
| Create (user : User) : RepoOp User
| Update (user : User) : RepoOp User
| Delete (user_id : string) : RepoOp bool
| ListUsers (skip limit : Z) : RepoOp (list User).

(** A call on the repository, as recorded in a trace. *)
Inductive Call : Type :=
| Called {X : Type} (op : RepoOp X).

(** An implementation of [UserRepository] over a store of type [S]. *)
Record Repository (S : Type) : Type := {
  handle : ∀ X : Type, RepoOp X → S → Result X * S
}.
Arguments handle {S} _ {X} _ _.

(** Code written against [UserRepository]. *)
Inductive Prog (A : Type) : Type :=
| Ret (a : A)
| Throw (e : Exn)
| Await {X : Type} (op : RepoOp X) (k : X → Prog A).
Arguments Ret {A} a.
Arguments Throw {A} e.
Arguments Await {A X} op k.

Fixpoint prog_bind {A B : Type} (m : Prog A) (f : A → Prog B) : Prog B :=
  match m with
  | Ret a => f a
  | Throw e => Throw e
  | Await op k => Await op (λ x, prog_bind (k x) f)
  end.

#[global] Instance prog_ret : MRet Prog := @Ret.
#[global] Instance prog_mbind : MBind Prog := λ A B f m, prog_bind m f.

(** [await self.user_repo.<op>(...)] *)
Definition await {X : Type} (op : RepoOp X) : Prog X := Await op Ret.

(** A call of a plain function that may raise. *)
Definition call {A : Type} (r : Result A) : Prog A :=
  match r with
  | Ok a => Ret a
  | Raise e => Throw e
  end.

Record Outcome (S A : Type) : Type := {
  result : Result A;
  store : S;
  calls : list Call
}.
Arguments result {S A} _.
Arguments store {S A} _.
Arguments calls {S A} _.

(** Running a program against a repository: the store is threaded through
    the operations, which are recorded in order. *)
Fixpoint run {S A : Type} (R : Repository S) (p : Prog A) (s : S) : Outcome S A :=
  match p with
  | Ret a => {| result := Ok a; store := s; calls := [] |}
  | Throw e => {| result := Raise e; store := s; calls := [] |}
  | Await op k =>
      match handle R op s with
      | (Ok x, s') =>
          let o := run R (k x) s' in
          {| result := result o; store := store o; calls := Called op :: calls o |}
      | (Raise e, s') =>
          {| result := Raise e; store := s'; calls := [Called op] |}
      end
  end.

(** ** passlib: [CryptContext(schemes=["bcrypt"], deprecated="auto")]

    The bcrypt computation itself is a parameter: [bcrypt_hash salt secret]
    is the digest for the salt the library drew, [bcrypt_verify secret hash]
    recomputes and compares; [None] stands for the [ValueError] the handler
    raises on a secret or digest it rejects. *)

Class BcryptHandler : Type := {
  bcrypt_hash : string → string → option string;
  bcrypt_verify : string → string → option bool
}.

Module passlib.
  (** [bcrypt.ident_values] *)
Definition ident_values : list string := ["$2$"; "$2a$"; "$2x$"; "$2y$"; "$2b$"].

(** [bcrypt.identify(hash)]: [hash.startswith(ident_values)] *)
Definition identify (hash : string) : bool :=
  existsb (λ ident, String.prefix ident hash) ident_values.

Definition handler_call {A : Type} (r : option A) : Result A :=
  match r with
  | Some a => Ok a
  | None => Raise PasslibValueError
  end.

Section context.
Context `{B : BcryptHandler}.

(** [CryptContext.hash(secret)] with the single scheme bcrypt *)
Definition hash (salt secret : string) : Result string :=
  handler_call (bcrypt_hash salt secret).

(** [CryptContext.verify(secret, hash)]: the digest is first identified
    among the configured schemes; "hash could not be identified" is an
    [UnknownHashError]. *)
Definition verify (secret hash : string) : Result bool :=
  if identify hash then handler_call (bcrypt_verify secret hash)
  else Raise UnknownHashError.
End context.
End passlib.

(** ** python-jose: [jose.jwt] with a shared secret

    JSON scalars, and the Python values a claims dictionary handed to
    [jwt.encode] holds: a JSON scalar or a [datetime]. *)

Inductive JVal : Type :=
| JNull
| JBool (b : bool)
| JInt (n : Z)
| JStr (s : string).

Inductive PyVal : Type :=
| VJson (v : JVal)
| VDatetime (d : datetime).

#[global] Instance JVal_eq_dec : EqDecision JVal.
Proof. solve_decision. Defined.

Definition to_json (v : PyVal) : option JVal :=
  match v with
  | VJson j => Some j
  | VDatetime _ => None
  end.

(** The parts of the library that are parameters of the model:
    - [b64_json o] is [base64url_encode(json.dumps(o))] of a JSON object and
      [un_b64_json] decodes a segment ([None]: bad padding, not JSON, or not
      an object);
    - [b64_bytes] and [un_b64_bytes] are base64url on raw bytes;
    - [hmac alg key msg] is the signature of [msg] for the named algorithm;
    - [validate_registered claims now] are the checks [jwt.decode] applies
      to the registered claims other than [exp] ([iat], [nbf], [aud], [iss],
      [sub], [jti], [at_hash]); a failure is a [JWTClaimsError]. *)
Class JoseBackend : Type := {
  b64_json : gmap string JVal → string;
  un_b64_json : string → option (gmap string JVal);
  b64_bytes : string → string;
  un_b64_bytes : string → option string;
  hmac : string → string → string → string;
  validate_registered : gmap string JVal → Z → bool
}.

(** Splitting at the first and at the last occurrence of a character:
    [s.split(c, 1)] and [s.rsplit(c, 1)] unpacked into two names
    ([None]: there is no such character, and the unpacking fails). *)
Fixpoint split_first (c : ascii) (s : string) : option (string * string) :=
  match s with
  | EmptyString => None
  | String a s' =>
      if Ascii.eqb a c then Some (EmptyString, s')
      else match split_first c s' with
           | Some (l, r) => Some (String a l, r)
           | None => None
           end
  end.

Fixpoint split_last (c : ascii) (s : string) : option (string * string) :=
  match s with
  | EmptyString => None
  | String a s' =>
      match split_last c s' with
      | Some (l, r) => Some (String a l, r)
      | None => if Ascii.eqb a c then Some (EmptyString, s') else None
      end
  end.

Fixpoint lacks (c : ascii) (s : string) : bool :=
  match s with
  | EmptyString => true
  | String a s' => negb (Ascii.eqb a c) && lacks c s'
  end.

Definition dot : ascii := "."%char.

(** What the model needs of the codecs: decoding inverts encoding, and the
    base64url alphabet has no dot. *)
Record JoseLawful (J : JoseBackend) : Prop := {
  un_b64_json_b64 : ∀ o, un_b64_json (b64_json o) = Some o;
  un_b64_bytes_b64 : ∀ s, un_b64_bytes (b64_bytes s) = Some s;
  b64_json_alphabet : ∀ o, lacks dot (b64_json o) = true;
  b64_bytes_alphabet : ∀ s, lacks dot (b64_bytes s) = true
}.

Module jose.
Section jwt.
Context `{J : JoseBackend}.

(** [jws.sign]: header, payload and signature, dot-joined. *)
Definition jws_header (algorithm : string) : gmap string JVal :=
  <["typ" := JStr "JWT"]> (<["alg" := JStr algorithm]> ∅).

Definition signing_input (payload : gmap string JVal) (algorithm : string) : string :=
  b64_json (jws_header algorithm) +:+ "." +:+ b64_json payload.

Definition jws_sign (payload : gmap string JVal) (key algorithm : string) : string :=
  signing_input payload algorithm
  +:+ "." +:+ b64_bytes (hmac algorithm key (signing_input payload algorithm)).

(** In [jwt.encode]: a [datetime] under [exp], [iat] or [nbf] becomes
    its [timegm]. *)
Definition convert_time_claim (claims : gmap string PyVal) (k : string)
  : gmap string PyVal :=
  match claims !! k with
  | Some (VDatetime d) => <[k := VJson (JInt (timegm d))]> claims
  | _ => claims
  end.

(** [json.dumps] of the claims: every value has to be JSON. *)
Definition json_dumps (claims : gmap string PyVal) : option (gmap string JVal) :=
  if decide (map_Forall (λ _ v, is_Some (to_json v)) claims)
  then Some (omap to_json claims)
  else None.

(** [jwt.encode(claims, key, algorithm=algorithm)] *)
Definition encode (claims : gmap string PyVal) (key algorithm : string)
  : Result string :=
  let claims := foldl convert_time_claim claims ["exp"; "iat"; "nbf"] in
  match json_dumps claims with
  | Some payload => Ok (jws_sign payload key algorithm)
  | None => Raise (TypeError "Object of type datetime is not JSON serializable")
  end.

(** [jws._load]: the token is cut at its last dot and the first part at
    its first dot; header and signature are decoded. *)
Definition jws_load (token : string)
  : option (string * gmap string JVal * string * string) :=
  '(signing_input, crypto_segment) ← split_last dot token;
  '(header_segment, claims_segment) ← split_first dot signing_input;
  header ← un_b64_json header_segment;
  signature ← un_b64_bytes crypto_segment;
  Some (signing_input, header, claims_segment, signature).

(** [jwt._validate_exp], with no leeway; [now] is in whole seconds.  An
    [exp] that is not an integer is a [JWTClaimsError]. *)
Definition validate_exp (claims : gmap string JVal) (now : Z) : Result () :=
  match claims !! "exp" with
  | None => Ok ()
  | Some (JInt exp) =>
      if (exp <? now)%Z then Raise ExpiredSignatureError else Ok ()
  | Some _ => Raise JWTClaimsError
  end.

(** [jwt._validate_claims] with the default options.  The library runs
    its checks in a fixed order and raises on the first that fails; here
    the checks other than [exp] come first, which can change which
    subclass of [JWTError] is raised and nothing else. *)
Definition validate_claims (claims : gmap string JVal) (now : Z) : Result () :=
  if validate_registered claims now then validate_exp claims now
  else Raise JWTClaimsError.

(** [jwt.decode(token, key, algorithms=algorithms)] at clock reading
    [utcnow].  Every rejection is a [JWTError] or one of its
    subclasses. *)
Definition decode (token key : string) (algorithms : list string)
    (utcnow : datetime) : Result (gmap string JVal) :=
  match jws_load token with
  | None => Raise JWTError
  | Some (signing_input, header, claims_segment, signature) =>
      match header !! "alg" with
      | Some (JStr alg) =>
          if negb (bool_decide (alg ∈ algorithms)) then Raise JWTError
          else if negb (String.eqb signature (hmac alg key signing_input))
          then Raise JWTError
          else match un_b64_json claims_segment with
               | None => Raise JWTError
               | Some claims =>
                   match validate_claims claims (timegm utcnow) with
                   | Ok _ => Ok claims
                   | Raise e => Raise e
                   end
               end
      | _ => Raise JWTError
      end
  end.
End jwt.
End jose.

(** ** utils/security.py *)

Module security.
Section security.
Context `{B : BcryptHandler} `{J : JoseBackend}.
Variable settings : Settings.

(** [verify_password(plain_password, hashed_password)] *)
Definition verify_password (plain_password hashed_password : string)
  : Result bool :=
  passlib.verify plain_password hashed_password.

(** [get_password_hash(password)]; [salt] is the salt the library draws. *)
Definition get_password_hash (salt password : string) : Result string :=
  passlib.hash salt password.

(** [create_access_token(data, expires_delta=None)] at clock reading
    [utcnow].  [if expires_delta:] is the truth value of the argument:
    [None] and the zero [timedelta] are both false. *)
Definition create_access_token (utcnow : datetime)
    (data : gmap string JVal) (expires_delta : option timedelta)
  : Result string :=
  let to_encode : gmap string PyVal := VJson <$> data in
  let expire : datetime :=
    match expires_delta with
    | Some delta =>
        if bool_decide (delta ≠ 0%Z) then (utcnow + delta)%Z
        else (utcnow + minutes (ACCESS_TOKEN_EXPIRE_MINUTES settings))%Z
    | None => (utcnow + minutes (ACCESS_TOKEN_EXPIRE_MINUTES settings))%Z
    end in
  let to_encode := <["exp" := VDatetime expire]> to_encode in
  jose.encode to_encode (SECRET_KEY settings) (ALGORITHM settings).

(** [decode_access_token(token)] at clock reading [utcnow]:
    [try: ... return payload / except JWTError: return None]. *)
Definition decode_access_token (utcnow : datetime) (token : string)
  : Result (option (gmap string JVal)) :=
  match jose.decode token (SECRET_KEY settings) [ALGORITHM settings] utcnow with
  | Ok payload => Ok (Some payload)
  | Raise e => if is_JWTError e then Ok None else Raise e
  end.
End security.
End security.

(** ** core/services/auth_services.py *)

Module AuthService.
Section AuthService.
Context `{B : BcryptHandler} `{J : JoseBackend}.
Variable settings : Settings.

(** The [User] that [register] builds. *)
Definition new_user (email hashed_password full_name : string) : User :=
  {| User.id := None;
     User.email := email;
     User.hashed_password := hashed_password;
     User.full_name := full_name;
     User.is_active := true;
     User.is_superuser := false;
     User.created_at := None;
     User.updated_at := None |}.

(** [AuthService.register(email, password, full_name)].  A [User] is
    always true, so [if existing_user:] tests for [None]. *)
Definition register (salt email password full_name : string) : Prog User :=
  existing_user ← await (GetByEmail email);
  match existing_user with
  | Some _ =>
      Throw (DuplicateEmailError ("Email " +:+ email +:+ " is already registered"))
  | None =>
      hashed ← call (security.get_password_hash salt password);
      let user := new_user email hashed full_name in
      created_user ← await (Create user);
      mret created_user
  end.

(** [AuthService.authenticate(email, password)] *)
Definition authenticate (email password : string) : Prog (option User) :=
  user ← await (GetByEmail email);
  match user with
  | None => mret None
  | Some user =>
      ok ← call (security.verify_password password (User.hashed_password user));
      if negb ok then mret None
      else if negb (User.is_active user) then mret None
      else mret (Some user)
  end.

(** [AuthService.create_access_token(user_id)]: a plain method, it does
    not touch [self.user_repo]. *)
Definition create_access_token (utcnow : datetime) (user_id : string)
  : Result string :=
  let access_token_expires := minutes (ACCESS_TOKEN_EXPIRE_MINUTES settings) in
  security.create_access_token settings utcnow
    (<["sub" := JStr user_id]> ∅) (Some access_token_expires).
End AuthService.
End AuthService.


(** ** adapters/database/postgres/models.py *)

Module UserModel.
Record t : Type := mk {
  id : string;                (* UUID primary key, as [str] prints it *)
  email : string;             (* unique, not null *)
  hashed_password : string;
  full_name : string;
  is_active : bool;
  is_superuser : bool;
  created_at : datetime;      (* default=datetime.utcnow *)
  updated_at : datetime       (* default=datetime.utcnow, onupdate=datetime.utcnow *)
}.

#[global] Instance eq_dec : EqDecision t.
Proof. solve_decision. Defined.
End UserModel.
Abbreviation UserModel := UserModel.t.

(** ** adapters/database/postgres/repositories.py

    The [users] table is the list of its rows.  What the session draws from
    outside when it flushes, the [uuid.uuid4()] of a new row and the
    [datetime.utcnow()] of the column defaults, is the environment [Env] of
    the repository; one reading of the clock serves the defaults of a
    write. *)

Record Env : Type := {
  uuid4 : string;
  utcnow : datetime
}.

Module postgres.

(** [result.scalar_one_or_none()] *)
Definition scalar_one_or_none {A : Type} (rows : list A) : Result (option A) :=
  match rows with
  | [] => Ok None
  | [row] => Ok (Some row)
  | _ => Raise MultipleResultsFound
  end.

(** [select(UserModel).where(UserModel.id == user_id)]; comparing with
    [None] selects no row. *)
Definition select_by_id (user_id : option string) (table : list UserModel)
  : list UserModel :=
  filter (λ row, Some (UserModel.id row) = user_id) table.

(** [select(UserModel).where(UserModel.email == email)] *)
Definition select_by_email (email : string) (table : list UserModel)
  : list UserModel :=
  filter (λ row, UserModel.email row = email) table.

(** [PostgresUserRepository._to_domain] *)
Definition _to_domain (db_user : UserModel) : User :=
  {| User.id := Some (UserModel.id db_user);
     User.email := UserModel.email db_user;
     User.hashed_password := UserModel.hashed_password db_user;
     User.full_name := UserModel.full_name db_user;
     User.is_active := UserModel.is_active db_user;
     User.is_superuser := UserModel.is_superuser db_user;
     User.created_at := Some (UserModel.created_at db_user);
     User.updated_at := Some (UserModel.updated_at db_user) |}.

(** The constraints of the table, checked when a row is written: the
    primary key and the unique index on [email]. *)
Definition conflicts (row : UserModel) (others : list UserModel) : bool :=
  existsb (λ other,
    bool_decide (UserModel.id other = UserModel.id row)
    || bool_decide (UserModel.email other = UserModel.email row)) others.

(** The table satisfies its constraints. *)
Definition consistent (table : list UserModel) : Prop :=
  NoDup (UserModel.id <$> table) ∧ NoDup (UserModel.email <$> table).

(** [PostgresUserRepository.get_by_id] *)
Definition get_by_id (user_id : string) (table : list UserModel)
  : Result (option User) :=
  match scalar_one_or_none (select_by_id (Some user_id) table) with
  | Ok (Some db_user) => Ok (Some (_to_domain db_user))
  | Ok None => Ok None
  | Raise e => Raise e
  end.

(** [PostgresUserRepository.get_by_email] *)
Definition get_by_email (email : string) (table : list UserModel)
  : Result (option User) :=
  match scalar_one_or_none (select_by_email email table) with
  | Ok (Some db_user) => Ok (Some (_to_domain db_user))
  | Ok None => Ok None
  | Raise e => Raise e
  end.

(** [PostgresUserRepository.create]: the new row takes five fields from
    [user]; its id and timestamps are the column defaults. *)
Definition create (env : Env) (user : User) (table : list UserModel)
  : Result User * list UserModel :=
  let db_user :=
    {| UserModel.id := uuid4 env;
       UserModel.email := User.email user;
       UserModel.hashed_password := User.hashed_password user;
       UserModel.full_name := User.full_name user;
       UserModel.is_active := User.is_active user;
       UserModel.is_superuser := User.is_superuser user;
       UserModel.created_at := utcnow env;
       UserModel.updated_at := utcnow env |} in
  if conflicts db_user table then (Raise IntegrityError, table)
  else (Ok (_to_domain db_user), table ++ [db_user]).

(** The four assignments of [update]. *)
Definition assign (user : User) (db_user : UserModel) : UserModel :=
  {| UserModel.id := UserModel.id db_user;
     UserModel.email := User.email user;
     UserModel.hashed_password := UserModel.hashed_password db_user;
     UserModel.full_name := User.full_name user;
     UserModel.is_active := User.is_active user;
     UserModel.is_superuser := User.is_superuser user;
     UserModel.created_at := UserModel.created_at db_user;
     UserModel.updated_at := UserModel.updated_at db_user |}.

(** The [onupdate] default of [updated_at], applied by the UPDATE that a
    changed row is flushed with. *)
Definition touch (env : Env) (db_user : UserModel) : UserModel :=
  {| UserModel.id := UserModel.id db_user;
     UserModel.email := UserModel.email db_user;
     UserModel.hashed_password := UserModel.hashed_password db_user;
     UserModel.full_name := UserModel.full_name db_user;
     UserModel.is_active := UserModel.is_active db_user;
     UserModel.is_superuser := UserModel.is_superuser db_user;
     UserModel.created_at := UserModel.created_at db_user;
     UserModel.updated_at := utcnow env |}.

(** The table with the row of [new]'s id replaced by [new]. *)
Definition write_row (new : UserModel) (table : list UserModel) : list UserModel :=
  (λ row, if decide (UserModel.id row = UserModel.id new) then new else row) <$> table.

(** [PostgresUserRepository.update].  A row the assignments leave as it
    was is not flushed. *)
Definition update (env : Env) (user : User) (table : list UserModel)
  : Result User * list UserModel :=
  match scalar_one_or_none (select_by_id (User.id user) table) with
  | Raise e => (Raise e, table)
  | Ok None =>
      (Raise (ValueError ("User " +:+ pystr (User.id user) +:+ " not found")), table)
  | Ok (Some db_user) =>
      let assigned := assign user db_user in
      if decide (assigned = db_user) then (Ok (_to_domain db_user), table)
      else
        let db_user' := touch env assigned in
        let others :=
          filter (λ row, UserModel.id row ≠ UserModel.id db_user) table in
        if conflicts db_user' others then (Raise IntegrityError, table)
        else (Ok (_to_domain db_user'), write_row db_user' table)
  end.

(** [PostgresUserRepository.delete] *)
Definition delete (user_id : string) (table : list UserModel)
  : Result bool * list UserModel :=
  match scalar_one_or_none (select_by_id (Some user_id) table) with
  | Raise e => (Raise e, table)
  | Ok None => (Ok false, table)
  | Ok (Some db_user) =>
      (Ok true, filter (λ row, UserModel.id row ≠ UserModel.id db_user) table)
  end.

(** [PostgresUserRepository.list]; the database refuses a negative OFFSET
    or LIMIT. *)
Definition list_users (skip limit : Z) (table : list UserModel)
  : Result (list User) :=
  if bool_decide (skip < 0 ∨ limit < 0)%Z then Raise DataError
  else Ok (_to_domain <$> take (Z.to_nat limit) (drop (Z.to_nat skip) table)).

(** [PostgresUserRepository] as an implementation of [UserRepository]. *)
Definition PostgresUserRepository (env : Env) : Repository (list UserModel) :=
  {| handle X op :=
       match op in RepoOp X return list UserModel → Result X * list UserModel with
       | GetById user_id => λ table, (get_by_id user_id table, table)
       | GetByEmail email => λ table, (get_by_email email table, table)
       | Create user => create env user
       | Update user => update env user
       | Delete user_id => delete user_id
       | ListUsers skip limit => λ table, (list_users skip limit table, table)
       end |}.

End postgres.


(** ** Stand-ins for the library parameters

    To run the model on examples the parameters need values.  The ones
    below have the interface, and the codec has the laws, that the model
    asks for; they have none of the cryptographic strength of what they
    stand for: an injective binary codec for base64url of JSON, a
    transparent tag for HMAC, a transparent digest for bcrypt, and the
    check of [sub] (it must be a string) for the registered claims. *)

Module standin.

Fixpoint bits_of_pos (p : positive) : string :=
  match p with
  | xH => EmptyString
  | xO q => String "0" (bits_of_pos q)
  | xI q => String "1" (bits_of_pos q)
  end.

Fixpoint pos_of_bits (s : string) : option positive :=
  match s with
  | EmptyString => Some xH
  | String a s' =>
      if Ascii.eqb a "0" then xO <$> pos_of_bits s'
      else if Ascii.eqb a "1" then xI <$> pos_of_bits s'
      else None
  end.

#[global] Instance JVal_countable : Countable JVal.
Proof.
  refine (inj_countable'
    (λ v, match v with
          | JNull => inl ()
          | JBool b => inr (inl b)
          | JInt n => inr (inr (inl n))
          | JStr s => inr (inr (inr s))
          end)
    (λ x, match x with
          | inl _ => JNull
          | inr (inl b) => JBool b
          | inr (inr (inl n)) => JInt n
          | inr (inr (inr s)) => JStr s
          end) _).
  intros []; reflexivity.
Defined.

Definition pack {A : Type} `{Countable A} (x : A) : string :=
  bits_of_pos (encode x).

Definition unpack {A : Type} `{Countable A} (s : string) : option A :=
  pos_of_bits s ≫= decode.

Definition sub_is_string (claims : gmap string JVal) : bool :=
  match claims !! "sub" with
  | None | Some (JStr _) => true
  | Some _ => false
  end.

Definition backend : JoseBackend :=
  {| b64_json := pack;
     un_b64_json := unpack;
     b64_bytes := pack;
     un_b64_bytes := unpack;
     hmac algorithm key msg := algorithm +:+ ":" +:+ key +:+ ":" +:+ msg;
     validate_registered claims _ := sub_is_string claims |}.

Definition dollar : ascii := "$"%char.

(** Digests of the form [$2b$<salt>$<secret>]. *)
Definition handler : BcryptHandler :=
  {| bcrypt_hash salt secret :=
       Some ("$2b$" +:+ salt +:+ "$" +:+ secret);
     bcrypt_verify secret hash :=
       if String.prefix "$2b$" hash then
         match split_first dollar (String.substring 4 (String.length hash - 4) hash) with
         | Some (_, secret') => Some (String.eqb secret secret')
         | None => None
         end
       else None |}.

Definition settings : Settings :=
  {| SECRET_KEY := "0123456789abcdef0123456789abcdef";
     ALGORITHM := "HS256";
     ACCESS_TOKEN_EXPIRE_MINUTES := 30 |}.

(** A store with one registered, active user. *)
Definition env : Env :=
  {| uuid4 := "123e4567-e89b-12d3-a456-426614174000";
     utcnow := 1705314600000000%Z |}.

Definition alice : UserModel :=
  {| UserModel.id := "7c9e6679-7425-40de-944b-e07fc1f90ae7";
     UserModel.email := "a@x.com";
     UserModel.hashed_password := "$2b$c2FsdA$Pass123!";
     UserModel.full_name := "A";
     UserModel.is_active := true;
     UserModel.is_superuser := false;
     UserModel.created_at := 1705310000000000%Z;
     UserModel.updated_at := 1705310000000000%Z |}.

Definition table : list UserModel := [alice].

(** A row as the integration tests of the repository create it: its
    [hashed_password] is the string "hashed". *)
Definition test_user : UserModel :=
  {| UserModel.id := "123e4567-e89b-12d3-a456-426614174000";
     UserModel.email := "test@example.com";
     UserModel.hashed_password := "hashed";
     UserModel.full_name := "Test User";
     UserModel.is_active := true;
     UserModel.is_superuser := false;
     UserModel.created_at := 1705310000000000%Z;
     UserModel.updated_at := 1705310000000000%Z |}.

Definition test_table : list UserModel := [test_user].

(** An update of alice that deactivates her; the digest it carries is not
    the stored one. *)
Definition deactivate_alice : User :=
  {| User.id := Some "7c9e6679-7425-40de-944b-e07fc1f90ae7";
     User.email := "a@x.com";
     User.hashed_password := "overwritten";
     User.full_name := "A";
     User.is_active := false;
     User.is_superuser := false;
     User.created_at := None;
     User.updated_at := None |}.

(** The claims of a token for alice, the same with a subject that is not
    a string, and a configuration with another secret. *)
Definition claims : gmap string JVal :=
  <["sub" := JStr "7c9e6679-7425-40de-944b-e07fc1f90ae7"]> ∅.


Definition other_settings : Settings :=
  {| SECRET_KEY := "fedcba9876543210fedcba9876543210";
     ALGORITHM := "HS256";
     ACCESS_TOKEN_EXPIRE_MINUTES := 30 |}.

End standin.

(** ** fastapi: what a dependency or an endpoint ends with

    An endpoint or a dependency returns a value or raises [HTTPException],
    which the framework turns into the response of that status; any other
    exception passes through it. *)

Record HTTPException : Type := {
  status_code : Z;
  detail : string;
  headers : option (list (string * string))
}.

Inductive Response (A : Type) : Type :=
| Returned (a : A)
| HTTPError (e : HTTPException).
Arguments Returned {A} a.
Arguments HTTPError {A} e.

(** ** api/v1/schemas.py and utils/pagination.py *)

Module schemas.

Record TokenResponse : Type := {
  access_token : string;
  token_type : string
}.

Record UserResponse : Type := {
  id : string;
  email : string;
  full_name : string;
  is_active : bool;
  created_at : datetime
}.

(** [UserResponse.from_domain(user)].  The fields [id] and [created_at]
    of the schema are not optional: [None] there does not validate
    ([None] below). *)
Definition from_domain (user : User) : option UserResponse :=
  match User.id user, User.created_at user with
  | Some id, Some created_at =>
      Some {| id := id;
              email := User.email user;
              full_name := User.full_name user;
              is_active := User.is_active user;
              created_at := created_at |}
  | _, _ => None
  end.

Record PaginatedResponse (T : Type) : Type := {
  items : list T;
  total : Z;
  page : Z;
  page_size : Z;
  total_pages : Z
}.
Arguments items {T} _.
Arguments total {T} _.
Arguments page {T} _.
Arguments page_size {T} _.
Arguments total_pages {T} _.

End schemas.

(** ** api/v1/dependencies.py *)

Module dependencies.

Definition unauthorized_bearer (detail : string) : HTTPException :=
  {| status_code := 401;
     detail := detail;
     headers := Some [("WWW-Authenticate", "Bearer")] |}.

Definition http_error (status_code : Z) (detail : string) : HTTPException :=
  {| status_code := status_code; detail := detail; headers := None |}.

(** [payload.get("sub")], bound to [user_id: str]: [None] when the key is
    missing or holds JSON [null].  python-jose returns no payload whose
    [sub] is another kind of value ("Subject must be a string"); those are
    listed with [None]. *)
Definition payload_sub (payload : gmap string JVal) : option string :=
  match payload !! "sub" with
  | Some (JStr user_id) => Some user_id
  | _ => None
  end.

Section dependencies.
Context `{J : JoseBackend}.
Variable settings : Settings.

(** [get_current_user(credentials, user_repo)] at clock reading [utcnow];
    [token] is [credentials.credentials]. *)
Definition get_current_user (utcnow : datetime) (token : string)
  : Prog (Response User) :=
  payload ← call (security.decode_access_token settings utcnow token);
  match payload with
  | None =>
      mret (HTTPError (unauthorized_bearer "Invalid authentication credentials"))
  | Some payload =>
      match payload_sub payload with
      | None =>
          mret (HTTPError (http_error 401 "Invalid authentication credentials"))
      | Some user_id =>
          user ← await (GetById user_id);
          match user with
          | None => mret (HTTPError (http_error 401 "User not found"))
          | Some user =>
              if negb (User.is_active user)
              then mret (HTTPError (http_error 403 "Inactive user"))
              else mret (Returned user)
          end
      end
  end.

End dependencies.

(** [get_current_active_superuser(current_user)] *)
Definition get_current_active_superuser (current_user : User) : Response User :=
  if negb (User.is_superuser current_user)
  then HTTPError (http_error 403 "Not enough permissions")
  else Returned current_user.

End dependencies.

(** ** api/v1/endpoints/auth.py and api/v1/endpoints/users.py *)

Module endpoints.
Section endpoints.
Context `{B : BcryptHandler} `{J : JoseBackend}.
Variable settings : Settings.

(** [auth_service.create_access_token(user.id)]: the id of a [User] may
    be [None], which the claims hold as JSON [null]. *)
Definition token_for (utcnow : datetime) (user_id : option string)
  : Result string :=
  match user_id with
  | Some user_id => AuthService.create_access_token settings utcnow user_id
  | None =>
      security.create_access_token settings utcnow (<["sub" := JNull]> ∅)
        (Some (minutes (ACCESS_TOKEN_EXPIRE_MINUTES settings)))
  end.

(** [login(data, auth_service)] at clock reading [utcnow]; [email] and
    [password] are the fields of [data]. *)
Definition login (utcnow : datetime) (email password : string)
  : Prog (Response schemas.TokenResponse) :=
  user ← AuthService.authenticate email password;
  match user with
  | None =>
      mret (HTTPError (dependencies.unauthorized_bearer "Incorrect email or password"))
  | Some user =>
      access_token ← call (token_for utcnow (User.id user));
      mret (Returned {| schemas.access_token := access_token;
                        schemas.token_type := "bearer" |})
  end.

End endpoints.

(** In [list_users(page, page_size, ...)]: the offset of a page and the
    number of pages, [(total + page_size - 1) // page_size]. *)
Definition page_skip (page page_size : Z) : Z := ((page - 1) * page_size)%Z.

Definition page_count (total page_size : Z) : Z :=
  ((total + page_size - 1) / page_size)%Z.

(** [list_users]: [list_users] and [count_users] are the two methods of
    the user service that the endpoint calls; [None] is a user that
    [from_domain] does not validate. *)
Definition list_users (service_list_users : Z → Z → list User)
    (service_count_users : Z) (page page_size : Z)
  : option (schemas.PaginatedResponse schemas.UserResponse) :=
  let skip := page_skip page page_size in
  let users := service_list_users skip page_size in
  let total := service_count_users in
  items ← mapM schemas.from_domain users;
  Some {| schemas.items := items;
          schemas.total := total;
          schemas.page := page;
          schemas.page_size := page_size;
          schemas.total_pages := page_count total page_size |}.

End endpoints.

(** More rows for the examples: an inactive user, and a table with both. *)
Module scenario.

Definition bob : UserModel :=
  {| UserModel.id := "9b2c1e8a-5d47-4c3b-8f6a-2e1d0c9b8a7f";
     UserModel.email := "b@x.com";
     UserModel.hashed_password := "$2b$c2FsdA$Secret99";
     UserModel.full_name := "B";
     UserModel.is_active := false;
     UserModel.is_superuser := false;
     UserModel.created_at := 1705311000000000%Z;
     UserModel.updated_at := 1705311000000000%Z |}.

Definition table : list UserModel := [standin.alice; bob].


End scenario.

(** * Properties *)

(** ** Running the service methods

    The two [async] methods unfold to a single lookup followed by a case
    analysis; these equations are what the later proofs rewrite with. *)

Section running.
Context `{B : BcryptHandler} {S : Type} (R : Repository S).

Lemma run_authenticate (s : S) (email password : string) :
  run R (AuthService.authenticate email password) s =
  match handle R (GetByEmail email) s with
  | (Ok None, s') =>
      {| result := Ok None; store := s'; calls := [Called (GetByEmail email)] |}
  | (Ok (Some user), s') =>
      {| result :=
           match security.verify_password password (User.hashed_password user) with
           | Raise e => Raise e
           | Ok false => Ok None
           | Ok true => if User.is_active user then Ok (Some user) else Ok None
           end;
         store := s';
         calls := [Called (GetByEmail email)] |}
  | (Raise e, s') =>
      {| result := Raise e; store := s'; calls := [Called (GetByEmail email)] |}
  end.
Proof.
  unfold AuthService.authenticate. cbn.
  destruct (handle R (GetByEmail email) s) as [[[user|]|e] s']; cbn; try reflexivity.
  destruct (security.verify_password password (User.hashed_password user)) as [[|]|e];
    cbn; try reflexivity.
  destruct (User.is_active user); reflexivity.
Qed.

Lemma run_register (s : S) (salt email password full_name : string) :
  run R (AuthService.register salt email password full_name) s =
  match handle R (GetByEmail email) s with
  | (Ok (Some _), s') =>
      {| result := Raise (DuplicateEmailError ("Email " +:+ email +:+ " is already registered"));
         store := s';
         calls := [Called (GetByEmail email)] |}
  | (Ok None, s') =>
      match security.get_password_hash salt password with
      | Raise e =>
          {| result := Raise e; store := s'; calls := [Called (GetByEmail email)] |}
      | Ok hashed =>
          let user := AuthService.new_user email hashed full_name in
          {| result := (handle R (Create user) s').1;
             store := (handle R (Create user) s').2;
             calls := [Called (GetByEmail email); Called (Create user)] |}
      end
  | (Raise e, s') =>
      {| result := Raise e; store := s'; calls := [Called (GetByEmail email)] |}
  end.
Proof.
  unfold AuthService.register. cbn.
  destruct (handle R (GetByEmail email) s) as [[[existing|]|e] s']; cbn; try reflexivity.
  destruct (security.get_password_hash salt password) as [hashed|e]; cbn; try reflexivity.
  destruct (handle R (Create (AuthService.new_user email hashed full_name)) s')
    as [[created|e] s'']; reflexivity.
Qed.

End running.

(** ** The PostgreSQL store *)

Section keyed_rows.
Context {A K : Type} (key : A → K).

(** In a list without duplicate keys, selecting on a key finds at most the
    one row that carries it. *)
Lemma filter_no_match (P : A → Prop) `{∀ x, Decision (P x)} (l : list A) :
  (∀ x, x ∈ l → ¬ P x) → filter P l = [].
Proof.
  induction l as [|a l IH]; intros Hno; [reflexivity|].
  rewrite filter_cons_False.
  - apply IH. intros x Hx. apply Hno. by right.
  - apply Hno. by left.
Qed.

Lemma filter_key (P : A → Prop) `{∀ x, Decision (P x)} (k : K) (l : list A) (x : A) :
  (∀ r, P r ↔ key r = k) →
  NoDup (key <$> l) → x ∈ l → key x = k → filter P l = [x].
Proof.
  intros HP. induction l as [|a l IH]; intros Hnd Hx Hk.
  - by apply not_elem_of_nil in Hx.
  - rewrite fmap_cons in Hnd. apply NoDup_cons in Hnd as [Ha Hnd].
    apply elem_of_cons in Hx as [->|Hx].
    + rewrite filter_cons_True by by apply HP.
      f_equal. apply filter_no_match. intros r Hr HPr.
      apply HP in HPr. apply Ha. rewrite Hk, <- HPr.
      by apply list_elem_of_fmap_2.
    + rewrite filter_cons_False; [by apply IH|].
      intros HPa. apply HP in HPa. apply Ha. rewrite HPa, <- Hk.
      by apply list_elem_of_fmap_2.
Qed.

End keyed_rows.

Section postgres_facts.
Import postgres.

Lemma select_by_email_found (table : list UserModel) (row : UserModel) :
  NoDup (UserModel.email <$> table) → row ∈ table →
  select_by_email (UserModel.email row) table = [row].
Proof.
  intros Hnd Hrow. unfold select_by_email.
  by apply (filter_key UserModel.email _ (UserModel.email row)).
Qed.

Lemma select_by_id_found (table : list UserModel) (row : UserModel) :
  NoDup (UserModel.id <$> table) → row ∈ table →
  select_by_id (Some (UserModel.id row)) table = [row].
Proof.
  intros Hnd Hrow. unfold select_by_id.
  apply (filter_key UserModel.id _ (UserModel.id row)); try done.
  intros r. split; [by intros [= ->] | by intros ->].
Qed.

(** [get_by_email] finds the row that carries the address. *)
Lemma get_by_email_found (table : list UserModel) (row : UserModel) :
  NoDup (UserModel.email <$> table) → row ∈ table →
  get_by_email (UserModel.email row) table = Ok (Some (_to_domain row)).
Proof.
  intros Hnd Hrow. unfold get_by_email.
  by rewrite select_by_email_found.
Qed.

Lemma get_by_email_absent (email : string) (table : list UserModel) :
  (∀ row, row ∈ table → UserModel.email row ≠ email) →
  get_by_email email table = Ok None.
Proof.
  intros Hno. unfold get_by_email, select_by_email.
  by rewrite filter_no_match.
Qed.

(** What [get_by_email] returns is a row of the table with that address. *)
Lemma get_by_email_sound (email : string) (table : list UserModel) (user : User) :
  get_by_email email table = Ok (Some user) →
  ∃ row, row ∈ table ∧ UserModel.email row = email ∧ user = _to_domain row.
Proof.
  unfold get_by_email. intros Hget.
  destruct (select_by_email email table) as [|row [|row' rows]] eqn:Hsel;
    simpl in Hget; try discriminate.
  injection Hget as <-. exists row.
  assert (Hin : row ∈ select_by_email email table) by (rewrite Hsel; by left).
  apply list_elem_of_filter in Hin as [Hemail Hin]. done.
Qed.

(** With unique addresses the lookup does not fail. *)
Lemma get_by_email_total (email : string) (table : list UserModel) :
  NoDup (UserModel.email <$> table) →
  (get_by_email email table = Ok None
     ∧ ∀ row, row ∈ table → UserModel.email row ≠ email)
  ∨ (∃ row, row ∈ table ∧ UserModel.email row = email
       ∧ get_by_email email table = Ok (Some (_to_domain row))).
Proof.
  intros Hnd.
  destruct (decide (Exists (λ row, UserModel.email row = email) table)) as [Hex|Hno].
  - right. apply Exists_exists in Hex as (row & Hrow & Hemail).
    exists row. split_and!; try done. subst email. by apply get_by_email_found.
  - left. rewrite Exists_exists in Hno.
    assert (Hall : ∀ row, row ∈ table → UserModel.email row ≠ email) by naive_solver.
    split; [by apply get_by_email_absent | done].
Qed.

(** Reading does not change the table. *)
Lemma handle_get_by_email (env : Env) (email : string) (table : list UserModel) :
  handle (PostgresUserRepository env) (GetByEmail email) table
  = (get_by_email email table, table).
Proof. reflexivity. Qed.



End postgres_facts.

(** ** AuthService.authenticate *)

(** C1, as amended.  Against every repository and in every state of it,
    [authenticate] returns the user that [get_by_email] found exactly when
    there is one, [verify_password] on its stored digest returns [True] and
    it is active.  When no user has the address, when [verify_password]
    returns [False], and when the user is inactive and [verify_password]
    returned, it returns [None]: the same value in the three cases.  What
    the lookup or [verify_password] raises reaches the caller. *)
Theorem authenticate_returns_user_iff `{B : BcryptHandler} {S : Type}
    (R : Repository S) (s : S) (email password : string) :
  let lookup := (handle R (GetByEmail email) s).1 in
  let answer := result (run R (AuthService.authenticate email password) s) in
  (∀ user, answer = Ok (Some user) ↔
     lookup = Ok (Some user)
     ∧ security.verify_password password (User.hashed_password user) = Ok true
     ∧ User.is_active user = true)
  ∧ (lookup = Ok None → answer = Ok None)
  ∧ (∀ user, lookup = Ok (Some user) →
       security.verify_password password (User.hashed_password user) = Ok false →
       answer = Ok None)
  ∧ (∀ user matched, lookup = Ok (Some user) →
       security.verify_password password (User.hashed_password user) = Ok matched →
       User.is_active user = false →
       answer = Ok None)
  ∧ (∀ user e, lookup = Ok (Some user) →
       security.verify_password password (User.hashed_password user) = Raise e →
       answer = Raise e)
  ∧ (∀ e, lookup = Raise e → answer = Raise e).
Proof.
  intros lookup answer. subst lookup answer. rewrite run_authenticate.
  destruct (handle R (GetByEmail email) s) as [[[found|]|e] s']; simpl.
  - split_and!.
    + intros user. split.
      * destruct (security.verify_password password (User.hashed_password found))
          as [[|]|e] eqn:Hv; try discriminate.
        destruct (User.is_active found) eqn:Ha; try discriminate.
        intros [= <-]. done.
      * intros ([= <-] & -> & ->). done.
    + discriminate.
    + by intros user [= <-] ->.
    + intros user matched [= <-] -> ->. by destruct matched.
    + by intros user e [= <-] ->.
    + discriminate.
  - split_and!; try done. intros user. split; [discriminate | by intros [? _]].
  - split_and!; try done; try (by intros e' [= <-]).
    intros user. split; [discriminate | by intros [? _]].
Qed.

Lemma authenticate_returns_user_iff_witness :
  ((handle (postgres.PostgresUserRepository standin.env)
      (GetByEmail "a@x.com") standin.table).1
     = Ok (Some (postgres._to_domain standin.alice))
   ∧ security.verify_password (B:=standin.handler) "Pass123!"
       (User.hashed_password (postgres._to_domain standin.alice)) = Ok true
   ∧ User.is_active (postgres._to_domain standin.alice) = true)
  ∧ result (run (postgres.PostgresUserRepository standin.env)
      (AuthService.authenticate (B:=standin.handler) "a@x.com" "Pass123!")
      standin.table)
    = Ok (Some (postgres._to_domain standin.alice)).
Proof.
  assert (H : (handle (postgres.PostgresUserRepository standin.env)
      (GetByEmail "a@x.com") standin.table).1
     = Ok (Some (postgres._to_domain standin.alice))
   ∧ security.verify_password (B:=standin.handler) "Pass123!"
       (User.hashed_password (postgres._to_domain standin.alice)) = Ok true
   ∧ User.is_active (postgres._to_domain standin.alice) = true)
    by (split_and!; reflexivity).
  split; [exact H|].
  exact (proj2 (proj1 (authenticate_returns_user_iff (B:=standin.handler)
    (postgres.PostgresUserRepository standin.env) standin.table
    "a@x.com" "Pass123!") (postgres._to_domain standin.alice)) H).
Defined.

(** C1 as stated fails: in the store that holds the user of the
    integration tests, whose digest is not a bcrypt digest, [authenticate]
    neither returns the user nor [None]: it raises. *)
Lemma authenticate_counterexample :
  result (run (postgres.PostgresUserRepository standin.env)
    (AuthService.authenticate (B:=standin.handler) "test@example.com" "Pass123!")
    standin.test_table)
  = Raise UnknownHashError.
Proof. reflexivity. Qed.

(** C10.  [authenticate] performs one operation on the repository, the
    lookup [get_by_email]; whatever the outcome, the table of the
    PostgreSQL store is afterwards what it was before. *)
Theorem authenticate_reads_only `{B : BcryptHandler} (email password : string) :
  (∀ (S : Type) (R : Repository S) (s : S),
     let o := run R (AuthService.authenticate email password) s in
     calls o = [Called (GetByEmail email)]
     ∧ store o = (handle R (GetByEmail email) s).2)
  ∧ (∀ (env : Env) (table : list UserModel),
       let o := run (postgres.PostgresUserRepository env)
                  (AuthService.authenticate email password) table in
       calls o = [Called (GetByEmail email)] ∧ store o = table).
Proof.
  assert (Hgen : ∀ (S : Type) (R : Repository S) (s : S),
     let o := run R (AuthService.authenticate email password) s in
     calls o = [Called (GetByEmail email)]
     ∧ store o = (handle R (GetByEmail email) s).2).
  { intros S R s o. subst o. rewrite run_authenticate.
    by destruct (handle R (GetByEmail email) s) as [[[found|]|e] s']. }
  split; [exact Hgen|].
  intros env table o. subst o.
  destruct (Hgen _ (postgres.PostgresUserRepository env) table) as [Hcalls Hstore].
  split; [exact Hcalls|]. rewrite Hstore. reflexivity.
Qed.

(** ** AuthService.register *)





(** ** PostgresUserRepository.update *)

Section update_facts.
Import postgres.

Lemma write_row_elem (new : UserModel) (table : list UserModel) (row : UserModel) :
  row ∈ table → UserModel.id row = UserModel.id new → new ∈ write_row new table.
Proof.
  intros Hrow Hid. unfold write_row. apply list_elem_of_fmap.
  exists row. split; [|done]. by rewrite decide_True.
Qed.


Lemma assign_fixed (user : User) (row : UserModel) :
  assign user row = row →
  UserModel.email row = User.email user
  ∧ UserModel.full_name row = User.full_name user
  ∧ UserModel.is_active row = User.is_active user
  ∧ UserModel.is_superuser row = User.is_superuser user.
Proof. intros <-. done. Qed.

End update_facts.




(** ** The token codec *)

Section splitting.
Context (c : ascii).

Lemma split_first_app (l r : string) :
  lacks c l = true → split_first c (l +:+ String c r) = Some (l, r).
Proof.
  induction l as [|a l IH]; simpl.
  - intros _. by rewrite Ascii.eqb_refl.
  - intros [Ha Hl]%andb_true_iff. apply negb_true_iff in Ha.
    by rewrite Ha, IH.
Qed.

Lemma split_last_lacks (s : string) :
  lacks c s = true → split_last c s = None.
Proof.
  induction s as [|a s IH]; simpl; [done|].
  intros [Ha Hs]%andb_true_iff. apply negb_true_iff in Ha.
  by rewrite IH, Ha.
Qed.

Lemma split_last_app (l r : string) :
  lacks c r = true → split_last c (l +:+ String c r) = Some (l, r).
Proof.
  intros Hr. induction l as [|a l IH]; simpl.
  - by rewrite split_last_lacks, Ascii.eqb_refl.
  - by rewrite IH.
Qed.

End splitting.

Section codec_facts.
Context `{J : JoseBackend} (L : JoseLawful J).

Lemma split_signing_input (payload : gmap string JVal) (algorithm : string) :
  split_first dot (jose.signing_input payload algorithm)
  = Some (b64_json (jose.jws_header algorithm), b64_json payload).
Proof.
  unfold jose.signing_input.
  change ("." +:+ ?x) with (String dot x).
  apply split_first_app, L.
Qed.

(** Loading a signed token gives back its parts. *)
Lemma jws_load_sign (payload : gmap string JVal) (key algorithm : string) :
  jose.jws_load (jose.jws_sign payload key algorithm)
  = Some (jose.signing_input payload algorithm,
          jose.jws_header algorithm,
          b64_json payload,
          hmac algorithm key (jose.signing_input payload algorithm)).
Proof.
  unfold jose.jws_load, jose.jws_sign.
  change ("." +:+ ?x) with (String dot x).
  rewrite split_last_app by apply L. simpl.
  rewrite split_signing_input. simpl.
  rewrite (un_b64_json_b64 J L). simpl.
  rewrite (un_b64_bytes_b64 J L). reflexivity.
Qed.

(** A token decoded under the key and algorithm it was signed with gives
    its payload, if the claims are valid at the time. *)
Lemma decode_sign (payload : gmap string JVal) (key algorithm : string)
    (now : datetime) :
  jose.decode (jose.jws_sign payload key algorithm) key [algorithm] now
  = match jose.validate_claims payload (timegm now) with
    | Ok _ => Ok payload
    | Raise e => Raise e
    end.
Proof.
  unfold jose.decode. rewrite jws_load_sign.
  unfold jose.jws_header. rewrite lookup_insert_ne by done.
  rewrite lookup_insert_eq.
  rewrite bool_decide_true by (by apply list_elem_of_singleton). simpl.
  rewrite String.eqb_refl. simpl.
  by rewrite (un_b64_json_b64 J L).
Qed.


End codec_facts.

Section encode_facts.
Context `{J : JoseBackend}.

Lemma json_dumps_exp (data : gmap string JVal) (n : Z) :
  jose.json_dumps (<["exp" := VJson (JInt n)]> (VJson <$> data))
  = Some (<["exp" := JInt n]> data).
Proof.
  unfold jose.json_dumps. rewrite decide_True.
  - f_equal. apply map_eq. intros k.
    rewrite lookup_omap. destruct (decide (k = "exp")) as [->|Hk].
    + by rewrite !lookup_insert_eq.
    + rewrite !lookup_insert_ne by done. rewrite lookup_fmap.
      by destruct (data !! k).
  - apply map_Forall_insert_2; [by eexists|].
    intros k v. rewrite lookup_fmap. destruct (data !! k); intros [= <-].
    by eexists.
Qed.

(** Encoding claims that are JSON but for a [datetime] under [exp] does not
    fail: the payload holds the claims and the expiry in whole seconds. *)
Lemma encode_with_exp (data : gmap string JVal) (expire : datetime)
    (key algorithm : string) :
  jose.encode (<["exp" := VDatetime expire]> (VJson <$> data)) key algorithm
  = Ok (jose.jws_sign (<["exp" := JInt (timegm expire)]> data) key algorithm).
Proof.
  unfold jose.encode. simpl.
  assert (Hconv : ∀ k m, k ≠ "exp" →
    jose.convert_time_claim (<["exp" := VJson (JInt m)]> (VJson <$> data)) k
    = <["exp" := VJson (JInt m)]> (VJson <$> data)).
  { intros k m Hk. unfold jose.convert_time_claim.
    rewrite lookup_insert_ne by done. rewrite lookup_fmap.
    by destruct (data !! k). }
  unfold jose.convert_time_claim at 3. rewrite lookup_insert_eq, insert_insert_eq.
  rewrite !Hconv by done.
  by rewrite json_dumps_exp.
Qed.

End encode_facts.

(** The stand-in codec is lawful. *)
Section standin_facts.
Import standin.

Lemma pos_of_bits_of_pos (p : positive) : pos_of_bits (bits_of_pos p) = Some p.
Proof. induction p as [p IH|p IH|]; simpl; by rewrite ?IH. Qed.

Lemma bits_of_pos_lacks_dot (p : positive) : lacks dot (bits_of_pos p) = true.
Proof. induction p as [p IH|p IH|]; simpl; by rewrite ?IH. Qed.

Lemma unpack_pack {A : Type} `{Countable A} (x : A) : unpack (pack x) = Some x.
Proof.
  unfold unpack, pack. rewrite pos_of_bits_of_pos. simpl. apply decode_encode.
Qed.

Lemma standin_lawful : JoseLawful backend.
Proof.
  split; simpl; intros.
  - apply unpack_pack.
  - apply unpack_pack.
  - apply bits_of_pos_lacks_dot.
  - apply bits_of_pos_lacks_dot.
Qed.

End standin_facts.

(** ** utils/security.py: tokens *)

Lemma timegm_mono (a b : datetime) : (a ≤ b)%Z → (timegm a ≤ timegm b)%Z.
Proof. intros Hab. unfold timegm. apply Z.div_le_mono; lia. Qed.


Section token_facts.
Context `{J : JoseBackend}.
Variable settings : Settings.

Lemma validate_claims_raises (claims : gmap string JVal) (now : Z) (e : Exn) :
  jose.validate_claims claims now = Raise e → is_JWTError e = true.
Proof.
  unfold jose.validate_claims, jose.validate_exp.
  repeat case_match; intros [= <-]; reflexivity.
Qed.


(** The token that [create_access_token] returns for a non-zero
    [expires_delta]. *)
Lemma create_access_token_some (issued : datetime) (data : gmap string JVal)
    (ttl : timedelta) :
  ttl ≠ 0%Z →
  security.create_access_token settings issued data (Some ttl)
  = Ok (jose.jws_sign (<["exp" := JInt (timegm (issued + ttl)%Z)]> data)
          (SECRET_KEY settings) (ALGORITHM settings)).
Proof.
  intros Httl. unfold security.create_access_token.
  rewrite bool_decide_true by done. apply encode_with_exp.
Qed.

(** The token it returns when [expires_delta] is omitted, or zero. *)
Lemma create_access_token_default (issued : datetime) (data : gmap string JVal)
    (expires_delta : option timedelta) :
  expires_delta = None ∨ expires_delta = Some 0%Z →
  security.create_access_token settings issued data expires_delta
  = Ok (jose.jws_sign
          (<["exp" := JInt (timegm (issued + minutes (ACCESS_TOKEN_EXPIRE_MINUTES settings))%Z)]> data)
          (SECRET_KEY settings) (ALGORITHM settings)).
Proof.
  intros [-> | ->]; unfold security.create_access_token;
    [|rewrite bool_decide_false by (intros Hne; by apply Hne)];
    apply encode_with_exp.
Qed.

(** Decoding a token signed with the configured key and algorithm. *)
Lemma decode_access_token_sign (L : JoseLawful J) (claims : gmap string JVal)
    (now : datetime) :
  security.decode_access_token settings now
    (jose.jws_sign claims (SECRET_KEY settings) (ALGORITHM settings))
  = match jose.validate_claims claims (timegm now) with
    | Ok _ => Ok (Some claims)
    | Raise _ => Ok None
    end.
Proof.
  unfold security.decode_access_token. rewrite decode_sign by done.
  destruct (jose.validate_claims claims (timegm now)) as [|e] eqn:Hv; [done|].
  by rewrite (validate_claims_raises _ _ _ Hv).
Qed.

Lemma validate_claims_exp (claims : gmap string JVal) (expiry now : Z) :
  jose.validate_claims (<["exp" := JInt expiry]> claims) now
  = if validate_registered (<["exp" := JInt expiry]> claims) now
    then if (expiry <? now)%Z then Raise ExpiredSignatureError else Ok ()
    else Raise JWTClaimsError.
Proof.
  unfold jose.validate_claims, jose.validate_exp. by rewrite lookup_insert_eq.
Qed.

End token_facts.






(** ** utils/security.py: passwords *)

(** C6, as amended.  [verify_password] returns what
    [pwd_context.verify] does and catches nothing: for a digest that is
    identified as bcrypt and that the handler accepts it returns the
    handler's verdict, [False] on a mismatch; for a digest that is not
    identified it raises [UnknownHashError]; and what the handler raises
    reaches the caller. *)
Theorem verify_password_delegates `{B : BcryptHandler}
    (plain_password hashed_password : string) :
  (passlib.identify hashed_password = false →
     security.verify_password plain_password hashed_password
     = Raise UnknownHashError)
  ∧ (∀ verdict, passlib.identify hashed_password = true →
       bcrypt_verify plain_password hashed_password = Some verdict →
       security.verify_password plain_password hashed_password = Ok verdict)
  ∧ (passlib.identify hashed_password = true →
       bcrypt_verify plain_password hashed_password = None →
       security.verify_password plain_password hashed_password
       = Raise PasslibValueError).
Proof.
  unfold security.verify_password, passlib.verify.
  split_and!.
  - by intros ->.
  - by intros verdict -> ->.
  - by intros -> ->.
Qed.

Lemma verify_password_delegates_witness :
  (passlib.identify "$2b$c2FsdA$Pass123!" = true
   ∧ bcrypt_verify (BcryptHandler:=standin.handler) "wrong" "$2b$c2FsdA$Pass123!"
     = Some false)
  ∧ security.verify_password (B:=standin.handler) "wrong" "$2b$c2FsdA$Pass123!"
    = Ok false.
Proof.
  assert (Hid : passlib.identify "$2b$c2FsdA$Pass123!" = true) by reflexivity.
  assert (Hv : bcrypt_verify (BcryptHandler:=standin.handler) "wrong"
                 "$2b$c2FsdA$Pass123!" = Some false) by reflexivity.
  split; [by split|].
  exact (proj1 (proj2 (verify_password_delegates (B:=standin.handler)
    "wrong" "$2b$c2FsdA$Pass123!")) false Hid Hv).
Defined.

(** C6 as stated fails: on the digest ["hashed"], which is not a bcrypt
    digest, [verify_password] raises instead of returning [False]. *)
Lemma verify_password_counterexample :
  security.verify_password (B:=standin.handler) "Pass123!" "hashed"
    = Raise UnknownHashError
  ∧ security.verify_password (B:=standin.handler) "Pass123!" "hashed"
    ≠ Ok false.
Proof. split; [reflexivity | discriminate]. Qed.

(** ** AuthService.create_access_token *)

(** C8.  [AuthService.create_access_token] is the codec's
    [create_access_token] on the claims [{"sub": user_id}] with the default
    lifetime of [ACCESS_TOKEN_EXPIRE_MINUTES]: the token encoded from the
    subject and the expiry [utcnow + default]; the codec applies the same
    default when the caller passes no lifetime; and no operation of the
    repository is performed. *)
Theorem create_access_token_delegates `{J : JoseBackend} (settings : Settings)
    (now : datetime) (user_id : string) :
  let subject : gmap string JVal := <["sub" := JStr user_id]> ∅ in
  let default_ttl := minutes (ACCESS_TOKEN_EXPIRE_MINUTES settings) in
  AuthService.create_access_token settings now user_id
    = security.create_access_token settings now subject (Some default_ttl)
  ∧ AuthService.create_access_token settings now user_id
    = jose.encode (<["exp" := VDatetime (now + default_ttl)%Z]> (VJson <$> subject))
        (SECRET_KEY settings) (ALGORITHM settings)
  ∧ (∀ data,
       security.create_access_token settings now data None
       = jose.encode (<["exp" := VDatetime (now + default_ttl)%Z]> (VJson <$> data))
           (SECRET_KEY settings) (ALGORITHM settings))
  ∧ (∀ (S : Type) (R : Repository S) (s : S),
       let o := run R (call (AuthService.create_access_token settings now user_id)) s in
       calls o = [] ∧ store o = s).
Proof.
  intros subject default_ttl. split_and!.
  - reflexivity.
  - unfold AuthService.create_access_token, security.create_access_token.
    fold subject default_ttl. by case_bool_decide.
  - reflexivity.
  - intros S R s o. subst o.
    by destruct (AuthService.create_access_token settings now user_id).
Qed.

(** ** The constraints of the table are an invariant of the store

    The theorems on [register] and [update] assume a table that satisfies
    its constraints.  The empty table does, and the writing operations
    preserve them. *)

Section consistency.
Import postgres.

Lemma conflicts_false (row : UserModel) (others : list UserModel) :
  conflicts row others = false →
  (UserModel.id row ∉ (UserModel.id <$> others))
  ∧ (UserModel.email row ∉ (UserModel.email <$> others)).
Proof.
  unfold conflicts. induction others as [|a others IH]; simpl.
  - intros _. split; apply not_elem_of_nil.
  - intros [Ha Hothers]%orb_false_iff. apply orb_false_iff in Ha as [Hid Hemail].
    apply bool_decide_eq_false in Hid, Hemail.
    destruct (IH Hothers) as [IHid IHemail].
    split; apply not_elem_of_cons; split; naive_solver.
Qed.

Lemma consistent_nil : consistent [].
Proof. split; apply NoDup_nil_2. Qed.

Lemma create_consistent (env : Env) (user : User) (table : list UserModel) :
  consistent table → consistent (create env user table).2.
Proof.
  intros [Hids Hemails]. unfold create.
  destruct (conflicts _ table) eqn:Hc; simpl; [done|].
  apply conflicts_false in Hc as [Hid Hemail]. simpl in Hid, Hemail.
  split; rewrite fmap_app; apply NoDup_app; simpl;
    (split_and!; [done | | apply NoDup_singleton]);
    intros x Hx ->%list_elem_of_singleton; done.
Qed.

Lemma NoDup_fmap_filter {A K : Type} (key : A → K) (P : A → Prop)
    `{∀ x, Decision (P x)} (l : list A) :
  NoDup (key <$> l) → NoDup (key <$> filter P l).
Proof.
  induction l as [|a l IH]; [done|].
  rewrite fmap_cons. intros [Ha Hl]%NoDup_cons.
  rewrite filter_cons. case_decide; [|by apply IH].
  rewrite fmap_cons. apply NoDup_cons. split; [|by apply IH].
  intros (x & Hkey & Hx)%list_elem_of_fmap.
  apply list_elem_of_filter in Hx as [_ Hx].
  apply Ha. rewrite Hkey. by apply list_elem_of_fmap_2.
Qed.

Lemma delete_consistent (user_id : string) (table : list UserModel) :
  consistent table → consistent (delete user_id table).2.
Proof.
  intros [Hids Hemails]. unfold delete.
  destruct (scalar_one_or_none _) as [[db_user|]|e]; simpl; try done.
  split; by apply NoDup_fmap_filter.
Qed.

Lemma write_row_ids (new : UserModel) (table : list UserModel) :
  UserModel.id <$> write_row new table = UserModel.id <$> table.
Proof.
  unfold write_row. rewrite <- list_fmap_compose.
  apply list_fmap_ext. intros i row _. simpl. by case_decide.
Qed.

Lemma write_row_absent (new : UserModel) (table : list UserModel) :
  UserModel.id new ∉ (UserModel.id <$> table) → write_row new table = table.
Proof.
  intros Hnew. unfold write_row. rewrite <- (list_fmap_id table) at 2.
  apply list_fmap_ext. intros i row Hrow. simpl.
  rewrite decide_False; [done|]. intros Hid. apply Hnew. rewrite <- Hid.
  apply list_elem_of_fmap_2. by eapply list_elem_of_lookup_2.
Qed.

Lemma write_row_emails (new : UserModel) (table : list UserModel) :
  NoDup (UserModel.id <$> table) →
  NoDup (UserModel.email <$> table) →
  (∀ r, r ∈ table → UserModel.id r ≠ UserModel.id new →
        UserModel.email r ≠ UserModel.email new) →
  NoDup (UserModel.email <$> write_row new table).
Proof.
  induction table as [|a table IH]; [done|].
  rewrite !fmap_cons. intros [Hida Hids]%NoDup_cons [Hema Hems]%NoDup_cons Hfree.
  change (write_row new (a :: table))
    with ((if decide (UserModel.id a = UserModel.id new) then new else a)
            :: write_row new table).
  rewrite fmap_cons. apply NoDup_cons.
  case_decide as Hid.
  - rewrite write_row_absent by by rewrite <- Hid.
    split; [|done].
    intros (r & Hemail & Hr)%list_elem_of_fmap.
    apply (Hfree r); [by right | | done].
    intros Hidr. apply Hida. rewrite Hid, <- Hidr. by apply list_elem_of_fmap_2.
  - split.
    + intros (r & Hemail & Hr)%list_elem_of_fmap.
      unfold write_row in Hr. apply list_elem_of_fmap in Hr as (r0 & -> & Hr0).
      case_decide.
      * apply (Hfree a); [by left | done | done].
      * apply Hema. rewrite Hemail. by apply list_elem_of_fmap_2.
    + apply IH; try done. intros r Hr. apply Hfree. by right.
Qed.

Lemma update_consistent (env : Env) (user : User) (table : list UserModel) :
  consistent table → consistent (update env user table).2.
Proof.
  intros [Hids Hemails]. unfold update.
  destruct (scalar_one_or_none _) as [[db_user|]|e]; simpl; try done.
  case_decide; [done|].
  destruct (conflicts _ _) eqn:Hc; simpl; [done|].
  apply conflicts_false in Hc as [_ Hemail]. simpl in Hemail.
  split.
  - by rewrite write_row_ids.
  - apply write_row_emails; try done. simpl.
    intros r Hr Hid Heq. apply Hemail. rewrite <- Heq.
    apply list_elem_of_fmap_2. by apply list_elem_of_filter.
Qed.

End consistency.

(** * Further properties of the store, the service and its callers *)

(** ** PostgresUserRepository: lookups *)

Section lookup_facts.
Import postgres.

Lemma get_by_id_found (table : list UserModel) (row : UserModel) :
  NoDup (UserModel.id <$> table) → row ∈ table →
  get_by_id (UserModel.id row) table = Ok (Some (_to_domain row)).
Proof.
  intros Hnd Hrow. unfold get_by_id. by rewrite select_by_id_found.
Qed.





End lookup_facts.



(** ** PostgresUserRepository.create *)

Section create_facts.
Import postgres.


End create_facts.





(** ** PostgresUserRepository.delete *)

Section delete_facts.
Import postgres.



End delete_facts.



(** ** PostgresUserRepository.update: failures and what is read back *)

Section update_more.
Import postgres.


Lemma select_by_id_none (user_id : option string) (table : list UserModel) :
  (∀ row, row ∈ table → Some (UserModel.id row) ≠ user_id) →
  select_by_id user_id table = [].
Proof. intros Hno. unfold select_by_id. by apply filter_no_match. Qed.

End update_more.



Lemma update_success (env : Env) (user updated : User) (table : list UserModel) :
  NoDup (UserModel.id <$> table) →
  (postgres.update env user table).1 = Ok updated →
  ∃ row, updated = postgres._to_domain row
    ∧ row ∈ (postgres.update env user table).2
    ∧ Some (UserModel.id row) = User.id user
    ∧ UserModel.email row = User.email user
    ∧ UserModel.full_name row = User.full_name user
    ∧ UserModel.is_active row = User.is_active user
    ∧ UserModel.is_superuser row = User.is_superuser user.
Proof.
  intros Hids. unfold postgres.update.
  destruct (decide (Exists (λ row, Some (UserModel.id row) = User.id user) table))
    as [Hex|Hno].
  - apply Exists_exists in Hex as (row & Hrow & Hid).
    rewrite <- Hid, select_by_id_found by done. simpl.
    destruct (decide (postgres.assign user row = row)) as [Hsame|Hchanged]; simpl.
    + intros [= <-]. destruct (assign_fixed _ _ Hsame) as (He & Hf & Ha & Hs).
      exists row. split_and!; done.
    + destruct (postgres.conflicts _ _); simpl; [done|].
      intros [= <-]. eexists. split_and!; try done.
      by apply write_row_elem with row.
  - rewrite Exists_exists in Hno.
    rewrite select_by_id_none by naive_solver. done.
Qed.



(** ** PostgresUserRepository.list *)



(** ** The constraints hold along every use of the repository *)

Lemma handle_consistent (env : Env) {X : Type} (op : RepoOp X)
    (table : list UserModel) :
  postgres.consistent table →
  postgres.consistent (handle (postgres.PostgresUserRepository env) op table).2.
Proof.
  intros Hc. destruct op; simpl; try done.
  - by apply create_consistent.
  - by apply update_consistent.
  - by apply delete_consistent.
Qed.

Lemma run_await {S A X : Type} (R : Repository S) (op : RepoOp X)
    (k : X → Prog A) (s : S) :
  run R (Await op k) s
  = match handle R op s with
    | (Ok x, s') =>
        {| result := result (run R (k x) s');
           store := store (run R (k x) s');
           calls := Called op :: calls (run R (k x) s') |}
    | (Raise e, s') => {| result := Raise e; store := s'; calls := [Called op] |}
    end.
Proof. reflexivity. Qed.

Lemma run_consistent_store {A : Type} (env : Env) (p : Prog A)
    (table : list UserModel) :
  postgres.consistent table →
  postgres.consistent (store (run (postgres.PostgresUserRepository env) p table)).
Proof.
  revert table. induction p as [a|e|X op k IH]; intros table Hc; [done | done |].
  pose proof (handle_consistent env op table Hc) as Hc'.
  rewrite run_await.
  destruct (handle (postgres.PostgresUserRepository env) op table) as [[x|e] table'];
    [by apply IH | done].
Qed.

(** X8.  The constraints of the table are an invariant of the store: the
    empty table satisfies them, every operation of the repository keeps
    them, whether it succeeds or fails, and so does whatever code written
    against [UserRepository] does, however it ends. *)
Theorem run_keeps_constraints {A : Type} (env : Env) (p : Prog A)
    (table : list UserModel) :
  postgres.consistent table →
  postgres.consistent []
  ∧ (∀ (X : Type) (op : RepoOp X),
       postgres.consistent (handle (postgres.PostgresUserRepository env) op table).2)
  ∧ postgres.consistent (store (run (postgres.PostgresUserRepository env) p table)).
Proof.
  intros Hc. split_and!.
  - apply consistent_nil.
  - intros X op. by apply handle_consistent.
  - by apply run_consistent_store.
Qed.

Lemma run_keeps_constraints_witness :
  postgres.consistent scenario.table
  ∧ postgres.consistent
      (store (run (postgres.PostgresUserRepository standin.env)
                (AuthService.register (B:=standin.handler)
                   "c2FsdA" "c@x.com" "Carol777" "C")
                scenario.table)).
Proof.
  assert (Hc : postgres.consistent scenario.table) by (split; compute_done).
  split; [exact Hc|].
  exact (proj2 (proj2 (run_keeps_constraints standin.env _ scenario.table Hc))).
Defined.

(** ** User.is_authenticated *)

(** X9.  A user that [authenticate] returns from the PostgreSQL store is a
    row of the table with the address asked for, and it is authenticated
    in the sense of [User.is_authenticated]: active and with an id.  The
    user that [register] builds for [create] is not, it has no id yet. *)
Theorem authenticated_user_is_authenticated `{B : BcryptHandler} (env : Env)
    (table : list UserModel) (email password : string) (user : User) :
  result (run (postgres.PostgresUserRepository env)
            (AuthService.authenticate email password) table) = Ok (Some user) →
  User.is_authenticated user = true
  ∧ (∃ row, row ∈ table ∧ UserModel.email row = email
            ∧ user = postgres._to_domain row)
  ∧ (∀ hashed full_name,
       User.is_authenticated (AuthService.new_user email hashed full_name) = false).
Proof.
  rewrite run_authenticate, handle_get_by_email.
  destruct (postgres.get_by_email email table) as [[found|]|e] eqn:Hget; simpl;
    try discriminate.
  destruct (security.verify_password password (User.hashed_password found))
    as [[|]|e]; try discriminate.
  destruct (User.is_active found) eqn:Hactive; try discriminate.
  intros [= <-].
  apply get_by_email_sound in Hget as (row & Hrow & Hemail & ->).
  split_and!; [|by exists row|done].
  unfold User.is_authenticated. simpl in *. by rewrite Hactive.
Qed.

Lemma authenticated_user_is_authenticated_witness :
  result (run (postgres.PostgresUserRepository standin.env)
            (AuthService.authenticate (B:=standin.handler) "a@x.com" "Pass123!")
            scenario.table)
    = Ok (Some (postgres._to_domain standin.alice))
  ∧ User.is_authenticated (postgres._to_domain standin.alice) = true.
Proof.
  assert (Hok : result (run (postgres.PostgresUserRepository standin.env)
            (AuthService.authenticate (B:=standin.handler) "a@x.com" "Pass123!")
            scenario.table)
    = Ok (Some (postgres._to_domain standin.alice))) by reflexivity.
  split; [exact Hok|].
  exact (proj1 (authenticated_user_is_authenticated (B:=standin.handler)
    standin.env scenario.table "a@x.com" "Pass123!" _ Hok)).
Defined.

(** ** AuthService: how the operations compose *)

Section service_scenarios.
Context `{B : BcryptHandler}.

(** A registration that succeeds against the PostgreSQL store appends one
    row, built from the arguments, the digest and what the store drew. *)
Lemma register_success (env : Env) (table : list UserModel)
    (salt email password full_name : string) (created : User) :
  postgres.consistent table →
  result (run (postgres.PostgresUserRepository env)
            (AuthService.register salt email password full_name) table)
    = Ok created →
  ∃ digest row,
    security.get_password_hash salt password = Ok digest
    ∧ row = {| UserModel.id := uuid4 env;
               UserModel.email := email;
               UserModel.hashed_password := digest;
               UserModel.full_name := full_name;
               UserModel.is_active := true;
               UserModel.is_superuser := false;
               UserModel.created_at := utcnow env;
               UserModel.updated_at := utcnow env |}
    ∧ created = postgres._to_domain row
    ∧ store (run (postgres.PostgresUserRepository env)
               (AuthService.register salt email password full_name) table)
      = table ++ [row]
    ∧ (∀ r, r ∈ table → UserModel.email r ≠ email).
Proof.
  intros [_ Hemails]. rewrite run_register, handle_get_by_email.
  destruct (get_by_email_total email table Hemails)
    as [[-> Habsent] | (row & Hrow & Hemail & ->)]; simpl; [|done].
  destruct (security.get_password_hash salt password) as [digest|e]; simpl; [|done].
  unfold postgres.create.
  destruct (postgres.conflicts _ table); simpl; [done|].
  intros [= <-]. by eexists _, _.
Qed.

End service_scenarios.

(** X10.  After a registration that succeeded against the PostgreSQL
    store, the new user is in the store under the address, active, with
    the id the store drew; [authenticate] with the address returns that
    user for a password that [verify_password] accepts against the stored
    digest, and [None] for one it refuses. *)
Theorem register_then_authenticate `{B : BcryptHandler} (env env' : Env)
    (table : list UserModel) (salt email password full_name : string)
    (created : User) :
  postgres.consistent table →
  result (run (postgres.PostgresUserRepository env)
            (AuthService.register salt email password full_name) table)
    = Ok created →
  let table' := store (run (postgres.PostgresUserRepository env)
                         (AuthService.register salt email password full_name) table) in
  postgres.get_by_email email table' = Ok (Some created)
  ∧ User.id created = Some (uuid4 env)
  ∧ User.email created = email
  ∧ User.is_active created = true
  ∧ security.get_password_hash salt password = Ok (User.hashed_password created)
  ∧ (∀ attempt,
       security.verify_password attempt (User.hashed_password created) = Ok true →
       result (run (postgres.PostgresUserRepository env')
                 (AuthService.authenticate email attempt) table')
       = Ok (Some created))
  ∧ (∀ attempt,
       security.verify_password attempt (User.hashed_password created) = Ok false →
       result (run (postgres.PostgresUserRepository env')
                 (AuthService.authenticate email attempt) table')
       = Ok None).
Proof.
  intros Hc Hok table'.
  assert (Hc' : postgres.consistent table') by by apply run_consistent_store.
  destruct (register_success env table salt email password full_name created Hc Hok)
    as (digest & row & Hdigest & Hrow & -> & Hstore & _).
  fold table' in Hstore.
  assert (Hfound : postgres.get_by_email email table'
                   = Ok (Some (postgres._to_domain row))).
  { replace email with (UserModel.email row) by by rewrite Hrow.
    apply get_by_email_found; [apply Hc'|].
    rewrite Hstore. apply elem_of_app. right. by left. }
  split_and!; try (by rewrite Hrow).
  - done.
  - intros attempt Hv. rewrite run_authenticate, handle_get_by_email, Hfound.
    cbv beta iota. rewrite Hv. by rewrite Hrow.
  - intros attempt Hv. rewrite run_authenticate, handle_get_by_email, Hfound.
    cbv beta iota. by rewrite Hv.
Qed.

Lemma register_then_authenticate_witness :
  postgres.consistent scenario.table
  ∧ ∃ created,
      result (run (postgres.PostgresUserRepository standin.env)
                (AuthService.register (B:=standin.handler)
                   "c2FsdA" "c@x.com" "Carol777" "C") scenario.table)
        = Ok created
      ∧ security.verify_password (B:=standin.handler) "Carol777"
          (User.hashed_password created) = Ok true
      ∧ result (run (postgres.PostgresUserRepository standin.env)
                  (AuthService.authenticate (B:=standin.handler) "c@x.com" "Carol777")
                  (store (run (postgres.PostgresUserRepository standin.env)
                            (AuthService.register (B:=standin.handler)
                               "c2FsdA" "c@x.com" "Carol777" "C") scenario.table)))
        = Ok (Some created).
Proof.
  assert (Hc : postgres.consistent scenario.table) by (split; compute_done).
  split; [exact Hc|]. eexists.
  assert (Hok : result (run (postgres.PostgresUserRepository standin.env)
                (AuthService.register (B:=standin.handler)
                   "c2FsdA" "c@x.com" "Carol777" "C") scenario.table)
        = Ok (postgres._to_domain
                {| UserModel.id := "123e4567-e89b-12d3-a456-426614174000";
                   UserModel.email := "c@x.com";
                   UserModel.hashed_password := "$2b$c2FsdA$Carol777";
                   UserModel.full_name := "C";
                   UserModel.is_active := true;
                   UserModel.is_superuser := false;
                   UserModel.created_at := 1705314600000000%Z;
                   UserModel.updated_at := 1705314600000000%Z |}))
    by reflexivity.
  assert (Hv : security.verify_password (B:=standin.handler) "Carol777"
                 "$2b$c2FsdA$Carol777" = Ok true) by reflexivity.
  split_and!; [exact Hok | exact Hv |].
  destruct (register_then_authenticate (B:=standin.handler) standin.env standin.env
    scenario.table "c2FsdA" "c@x.com" "Carol777" "C" _ Hc Hok)
    as (_ & _ & _ & _ & _ & Hauth & _).
  exact (Hauth "Carol777" Hv).
Defined.

(** X11.  After a registration that succeeded, every further registration
    with the same address fails with [DuplicateEmailError], whatever the
    password, the name and the id the store would draw, and leaves the
    table as it is: one row holds the address. *)
Theorem register_twice `{B : BcryptHandler} (env env' : Env)
    (table : list UserModel)
    (salt email password full_name salt' password' full_name' : string)
    (created : User) :
  postgres.consistent table →
  result (run (postgres.PostgresUserRepository env)
            (AuthService.register salt email password full_name) table)
    = Ok created →
  let table' := store (run (postgres.PostgresUserRepository env)
                         (AuthService.register salt email password full_name) table) in
  let second := run (postgres.PostgresUserRepository env')
                  (AuthService.register salt' email password' full_name') table' in
  result second
    = Raise (DuplicateEmailError ("Email " +:+ email +:+ " is already registered"))
  ∧ store second = table'
  ∧ length (postgres.select_by_email email table') = 1
  ∧ length table' = S (length table).
Proof.
  intros Hc Hok table' second.
  assert (Hc' : postgres.consistent table') by by apply run_consistent_store.
  destruct (register_success env table salt email password full_name created Hc Hok)
    as (digest & row & Hdigest & Hrow & -> & Hstore & _).
  fold table' in Hstore.
  assert (Hin : row ∈ table') by (rewrite Hstore; apply elem_of_app; right; by left).
  assert (Hemail : UserModel.email row = email) by by rewrite Hrow.
  subst second. rewrite run_register, handle_get_by_email.
  rewrite <- Hemail at 1 2 3.
  rewrite get_by_email_found by (done || apply Hc'). simpl.
  split_and!; try done.
  - by rewrite Hemail.
  - rewrite <- Hemail. rewrite select_by_email_found by (done || apply Hc'). done.
  - rewrite Hstore, length_app. simpl. lia.
Qed.

Lemma register_twice_witness :
  postgres.consistent scenario.table
  ∧ (∃ created,
       result (run (postgres.PostgresUserRepository standin.env)
                 (AuthService.register (B:=standin.handler)
                    "c2FsdA" "c@x.com" "Carol777" "C") scenario.table)
       = Ok created)
  ∧ result (run (postgres.PostgresUserRepository standin.env)
              (AuthService.register (B:=standin.handler)
                 "c2FsdA" "c@x.com" "Other456!" "D")
              (store (run (postgres.PostgresUserRepository standin.env)
                        (AuthService.register (B:=standin.handler)
                           "c2FsdA" "c@x.com" "Carol777" "C") scenario.table)))
    = Raise (DuplicateEmailError "Email c@x.com is already registered").
Proof.
  assert (Hc : postgres.consistent scenario.table) by (split; compute_done).
  assert (Hok : result (run (postgres.PostgresUserRepository standin.env)
                (AuthService.register (B:=standin.handler)
                   "c2FsdA" "c@x.com" "Carol777" "C") scenario.table)
        = Ok (postgres._to_domain
                {| UserModel.id := "123e4567-e89b-12d3-a456-426614174000";
                   UserModel.email := "c@x.com";
                   UserModel.hashed_password := "$2b$c2FsdA$Carol777";
                   UserModel.full_name := "C";
                   UserModel.is_active := true;
                   UserModel.is_superuser := false;
                   UserModel.created_at := 1705314600000000%Z;
                   UserModel.updated_at := 1705314600000000%Z |}))
    by reflexivity.
  split_and!; [exact Hc | by eexists |].
  exact (proj1 (register_twice (B:=standin.handler) standin.env standin.env
    scenario.table "c2FsdA" "c@x.com" "Carol777" "C" "c2FsdA" "Other456!" "D"
    _ Hc Hok)).
Defined.

(** X12.  Once an [update] that sets [is_active] to false has succeeded,
    [authenticate] returns no user for the address of that user, whatever
    the password: [None] if [verify_password] returns, and its error if it
    raises. *)
Theorem deactivated_user_is_rejected `{B : BcryptHandler} (env env' : Env)
    (table : list UserModel) (user updated : User) (password : string) :
  postgres.consistent table →
  User.is_active user = false →
  (postgres.update env user table).1 = Ok updated →
  let table' := (postgres.update env user table).2 in
  let answer := result (run (postgres.PostgresUserRepository env')
                          (AuthService.authenticate (User.email user) password)
                          table') in
  (∀ found, answer ≠ Ok (Some found))
  ∧ (∀ verdict,
       security.verify_password password (User.hashed_password updated) = Ok verdict →
       answer = Ok None).
Proof.
  intros Hc Hinactive Hok table' answer.
  assert (Hc' : postgres.consistent table') by by apply update_consistent.
  destruct Hc as [Hids _].
  destruct (update_success env user updated table Hids Hok)
    as (row & -> & Hrow & _ & He & _ & Ha & _).
  fold table' in Hrow. rewrite Hinactive in Ha.
  subst answer. rewrite run_authenticate, handle_get_by_email.
  rewrite <- He, get_by_email_found by (done || apply Hc'). simpl. rewrite Ha.
  split.
  - intros found. by destruct (security.verify_password _ _) as [[|]|].
  - intros verdict ->. by destruct verdict.
Qed.

Lemma deactivated_user_is_rejected_witness :
  postgres.consistent standin.table
  ∧ User.is_active standin.deactivate_alice = false
  ∧ (∃ updated,
       (postgres.update standin.env standin.deactivate_alice standin.table).1
       = Ok updated)
  ∧ result (run (postgres.PostgresUserRepository standin.env)
              (AuthService.authenticate (B:=standin.handler) "a@x.com" "Pass123!")
              (postgres.update standin.env standin.deactivate_alice standin.table).2)
    = Ok None.
Proof.
  assert (Hc : postgres.consistent standin.table)
    by (split; apply NoDup_singleton).
  assert (Hok : (postgres.update standin.env standin.deactivate_alice
                   standin.table).1
                = Ok (postgres._to_domain
                        (postgres.touch standin.env
                           (postgres.assign standin.deactivate_alice standin.alice))))
    by reflexivity.
  split_and!; [exact Hc | reflexivity | by eexists |].
  exact (proj2 (deactivated_user_is_rejected (B:=standin.handler)
    standin.env standin.env standin.table standin.deactivate_alice _ "Pass123!"
    Hc eq_refl Hok) true eq_refl).
Defined.

(** ** Sequencing programs *)

Lemma run_bind {S A C : Type} (R : Repository S) (m : Prog A) (f : A → Prog C)
    (s : S) :
  run R (m ≫= f) s
  = match result (run R m s) with
    | Ok a =>
        {| result := result (run R (f a) (store (run R m s)));
           store := store (run R (f a) (store (run R m s)));
           calls := calls (run R m s) ++ calls (run R (f a) (store (run R m s))) |}
    | Raise e =>
        {| result := Raise e; store := store (run R m s); calls := calls (run R m s) |}
    end.
Proof.
  revert s. induction m as [a|e|X op k IH]; intros s.
  - change (Ret a ≫= f) with (f a). simpl. by destruct (run R (f a) s).
  - reflexivity.
  - change (Await op k ≫= f) with (Await op (λ x, k x ≫= f)).
    rewrite !run_await.
    destruct (handle R op s) as [[x|e] s']; [|reflexivity].
    rewrite IH. simpl. by destruct (result (run R (k x) s')).
Qed.

Lemma run_call {S A : Type} (R : Repository S) (r : Result A) (s : S) :
  run R (call r) s = {| result := r; store := s; calls := [] |}.
Proof. by destruct r. Qed.

(** ** Tokens of the service *)

Section issued_tokens.
Context `{J : JoseBackend}.
Variable settings : Settings.

(** The claims of the token issued at [issued] for [subject]. *)
Lemma issued_token (issued : datetime) (subject : JVal) :
  security.create_access_token settings issued (<["sub" := subject]> ∅)
    (Some (minutes (ACCESS_TOKEN_EXPIRE_MINUTES settings)))
  = Ok (jose.jws_sign
          (<["exp" := JInt (timegm (issued + minutes (ACCESS_TOKEN_EXPIRE_MINUTES settings))%Z)]>
             (<["sub" := subject]> ∅))
          (SECRET_KEY settings) (ALGORITHM settings)).
Proof.
  destruct (decide (minutes (ACCESS_TOKEN_EXPIRE_MINUTES settings) = 0%Z)) as [H0|Hne].
  - rewrite create_access_token_default by (right; by rewrite H0). done.
  - by rewrite create_access_token_some.
Qed.

Lemma payload_sub_issued (expiry : Z) (user_id : string) :
  dependencies.payload_sub (<["exp" := JInt expiry]> (<["sub" := JStr user_id]> ∅))
  = Some user_id.
Proof.
  unfold dependencies.payload_sub.
  rewrite lookup_insert_ne by done. by rewrite lookup_insert_eq.
Qed.

End issued_tokens.

(** ** api/v1/dependencies.py: get_current_user *)

Section current_user_facts.
Context `{J : JoseBackend}.
Variable settings : Settings.

Lemma payload_sub_Some (payload : gmap string JVal) (user_id : string) :
  dependencies.payload_sub payload = Some user_id ↔
  payload !! "sub" = Some (JStr user_id).
Proof.
  unfold dependencies.payload_sub.
  destruct (payload !! "sub") as [[| | |s]|]; split; try done; by intros [= ->].
Qed.

Lemma run_get_current_user {S : Type} (R : Repository S) (s : S)
    (now : datetime) (token : string) :
  run R (dependencies.get_current_user settings now token) s
  = match security.decode_access_token settings now token with
    | Raise e => {| result := Raise e; store := s; calls := [] |}
    | Ok None =>
        {| result := Ok (HTTPError (dependencies.unauthorized_bearer
                                      "Invalid authentication credentials"));
           store := s; calls := [] |}
    | Ok (Some payload) =>
        match dependencies.payload_sub payload with
        | None =>
            {| result := Ok (HTTPError (dependencies.http_error 401
                                          "Invalid authentication credentials"));
               store := s; calls := [] |}
        | Some user_id =>
            {| result :=
                 match (handle R (GetById user_id) s).1 with
                 | Raise e => Raise e
                 | Ok None =>
                     Ok (HTTPError (dependencies.http_error 401 "User not found"))
                 | Ok (Some user) =>
                     if User.is_active user then Ok (Returned user)
                     else Ok (HTTPError (dependencies.http_error 403 "Inactive user"))
                 end;
               store := (handle R (GetById user_id) s).2;
               calls := [Called (GetById user_id)] |}
        end
    end.
Proof.
  unfold dependencies.get_current_user.
  destruct (security.decode_access_token settings now token) as [[payload|]|e];
    try reflexivity.
  cbn. destruct (dependencies.payload_sub payload) as [user_id|]; [|reflexivity].
  cbn. destruct (handle R (GetById user_id) s) as [[[user|]|e] s']; try reflexivity.
  cbn. by destruct (User.is_active user).
Qed.

End current_user_facts.

(** X13.  [get_current_user] returns a user exactly when the token decodes
    to claims whose [sub] is a string, the repository finds a user under
    that id and the user is active; it then returns that user.  Every
    refusal is a 401, or the 403 "Inactive user".  A token that does not
    decode is refused without the repository being asked, and in no case
    is the repository asked for more than one lookup by id. *)
Theorem get_current_user_returns_iff `{J : JoseBackend} (settings : Settings)
    {S : Type} (R : Repository S) (s : S) (now : datetime) (token : string) :
  let out := run R (dependencies.get_current_user settings now token) s in
  (∀ user, result out = Ok (Returned user) ↔
     ∃ payload user_id,
       security.decode_access_token settings now token = Ok (Some payload)
       ∧ payload !! "sub" = Some (JStr user_id)
       ∧ (handle R (GetById user_id) s).1 = Ok (Some user)
       ∧ User.is_active user = true)
  ∧ (∀ e, result out = Ok (HTTPError e) →
       status_code e = 401%Z
       ∨ (status_code e = 403%Z ∧ detail e = "Inactive user"))
  ∧ (security.decode_access_token settings now token = Ok None →
       result out = Ok (HTTPError (dependencies.unauthorized_bearer
                                     "Invalid authentication credentials"))
       ∧ calls out = [] ∧ store out = s)
  ∧ (calls out = [] ∨ ∃ user_id, calls out = [Called (GetById user_id)]).
Proof.
  intros out. subst out. rewrite run_get_current_user.
  destruct (security.decode_access_token settings now token) as [[payload|]|e];
    simpl.
  - destruct (dependencies.payload_sub payload) as [user_id|] eqn:Hsub; simpl.
    + apply payload_sub_Some in Hsub. split_and!; [| |done|right; by eexists].
      * intros user. split.
        -- destruct (handle R (GetById user_id) s).1 as [[found|]|e] eqn:Hget;
             try done.
           destruct (User.is_active found) eqn:Hactive; try done.
           intros [= <-]. by exists payload, user_id.
        -- intros (payload' & user_id' & [= <-] & Hsub' & Hget & Hactive).
           rewrite Hsub in Hsub'. injection Hsub' as <-.
           by rewrite Hget, Hactive.
      * intros e. destruct (handle R (GetById user_id) s).1 as [[found|]|e'];
          try done.
        -- destruct (User.is_active found); [done|]. intros [= <-]. by right.
        -- intros [= <-]. by left.
    + split_and!; [| |done|by left].
      * intros user. split; [done|].
        intros (payload' & user_id' & [= <-] & Hsub' & _).
        apply payload_sub_Some in Hsub'. congruence.
      * intros e [= <-]. by left.
  - split_and!; [| |done|by left].
    + intros user. split; [done|]. by intros (? & ? & ? & _).
    + intros e [= <-]. by left.
  - split_and!; [|done|done|by left].
    intros user. split; [done|]. by intros (? & ? & ? & _).
Qed.

Lemma get_current_user_returns_iff_witness :
  security.decode_access_token (J:=standin.backend) standin.settings
    60000000%Z "not.a.token" = Ok None
  ∧ result (run (postgres.PostgresUserRepository standin.env)
              (dependencies.get_current_user (J:=standin.backend) standin.settings
                 60000000%Z "not.a.token") scenario.table)
    = Ok (HTTPError (dependencies.unauthorized_bearer
                       "Invalid authentication credentials")).
Proof.
  assert (Hd : security.decode_access_token (J:=standin.backend) standin.settings
    60000000%Z "not.a.token" = Ok None) by reflexivity.
  split; [exact Hd|].
  exact (proj1 (proj1 (proj2 (proj2 (get_current_user_returns_iff
    (J:=standin.backend) standin.settings
    (postgres.PostgresUserRepository standin.env) scenario.table
    60000000%Z "not.a.token"))) Hd)).
Defined.



(** ** api/v1/endpoints/auth.py: login *)

Section login_facts.
Context `{B : BcryptHandler} `{J : JoseBackend}.
Variable settings : Settings.

(** Issuing the token does not fail. *)
Lemma token_for_returns (now : datetime) (user_id : option string) :
  ∃ token, endpoints.token_for settings now user_id = Ok token.
Proof.
  destruct user_id as [user_id|]; simpl; eexists.
  - unfold AuthService.create_access_token. apply issued_token.
  - apply issued_token.
Qed.

Lemma run_login {S : Type} (R : Repository S) (s : S) (now : datetime)
    (email password : string) :
  run R (endpoints.login settings now email password) s
  = {| result :=
         match result (run R (AuthService.authenticate email password) s) with
         | Ok (Some user) =>
             match endpoints.token_for settings now (User.id user) with
             | Ok token =>
                 Ok (Returned {| schemas.access_token := token;
                                 schemas.token_type := "bearer" |})
             | Raise e => Raise e
             end
         | Ok None =>
             Ok (HTTPError (dependencies.unauthorized_bearer
                              "Incorrect email or password"))
         | Raise e => Raise e
         end;
       store := store (run R (AuthService.authenticate email password) s);
       calls := calls (run R (AuthService.authenticate email password) s) |}.
Proof.
  unfold endpoints.login. rewrite run_bind.
  destruct (result (run R (AuthService.authenticate email password) s))
    as [[user|]|e]; [| by rewrite app_nil_r | done].
  rewrite run_bind, run_call. simpl.
  destruct (endpoints.token_for settings now (User.id user)); simpl;
    by rewrite app_nil_r.
Qed.

End login_facts.



(** X16.  The flow of the end-to-end test.  When [login] against the
    PostgreSQL store answers with a token, the table is unchanged, and
    presenting that token to [get_current_user] up to its expiry returns
    the user that logged in: the row of the table with the address given
    at login. *)
Theorem login_then_current_user `{B : BcryptHandler} `{J : JoseBackend}
    (L : JoseLawful J) (settings : Settings) (env env' : Env)
    (table : list UserModel) (issued : datetime) (email password : string)
    (response : schemas.TokenResponse) :
  postgres.consistent table →
  result (run (postgres.PostgresUserRepository env)
            (endpoints.login settings issued email password) table)
    = Ok (Returned response) →
  ∃ row,
    row ∈ table
    ∧ UserModel.email row = email
    ∧ UserModel.is_active row = true
    ∧ store (run (postgres.PostgresUserRepository env)
               (endpoints.login settings issued email password) table) = table
    ∧ ∀ now,
        validate_registered
          (<["exp" := JInt (timegm (issued + minutes (ACCESS_TOKEN_EXPIRE_MINUTES settings))%Z)]>
             (<["sub" := JStr (UserModel.id row)]> ∅)) (timegm now) = true →
        (now ≤ issued + minutes (ACCESS_TOKEN_EXPIRE_MINUTES settings))%Z →
        result (run (postgres.PostgresUserRepository env')
                  (dependencies.get_current_user settings now
                     (schemas.access_token response)) table)
        = Ok (Returned (postgres._to_domain row)).
Proof.
  intros [Hids _]. rewrite run_login. cbn [result store calls].
  rewrite run_authenticate, handle_get_by_email.
  destruct (postgres.get_by_email email table) as [[found|]|e] eqn:Hget;
    cbn [result store calls]; try done.
  apply get_by_email_sound in Hget as (row & Hrow & Hemail & ->).
  destruct (security.verify_password password _) as [[|]|e]; try done.
  change (User.is_active (postgres._to_domain row)) with (UserModel.is_active row).
  destruct (UserModel.is_active row) eqn:Hactive; [|done].
  change (User.id (postgres._to_domain row)) with (Some (UserModel.id row)).
  unfold endpoints.token_for, AuthService.create_access_token.
  rewrite issued_token.
  intros [= <-]. cbn [schemas.access_token]. exists row. split_and!; try done.
  intros now Hreg Hnow.
  rewrite run_get_current_user, decode_access_token_sign by done.
  rewrite validate_claims_exp, Hreg.
  apply timegm_mono in Hnow.
  destruct (Z.ltb_spec
    (timegm (issued + minutes (ACCESS_TOKEN_EXPIRE_MINUTES settings))%Z)
    (timegm now)); [lia|].
  rewrite payload_sub_issued. simpl.
  rewrite get_by_id_found by done. simpl. by rewrite Hactive.
Qed.

Lemma login_then_current_user_witness :
  postgres.consistent scenario.table
  ∧ ∃ response,
      result (run (postgres.PostgresUserRepository standin.env)
                (endpoints.login (B:=standin.handler) (J:=standin.backend)
                   standin.settings 0%Z "a@x.com" "Pass123!") scenario.table)
        = Ok (Returned response)
      ∧ ∃ row, row ∈ scenario.table ∧ UserModel.email row = "a@x.com".
Proof.
  assert (Hc : postgres.consistent scenario.table) by (split; compute_done).
  split; [exact Hc|].
  destruct (token_for_returns (J:=standin.backend) standin.settings 0%Z
    (Some "7c9e6679-7425-40de-944b-e07fc1f90ae7")) as [token Htoken].
  assert (Hout : result (run (postgres.PostgresUserRepository standin.env)
                (endpoints.login (B:=standin.handler) (J:=standin.backend)
                   standin.settings 0%Z "a@x.com" "Pass123!") scenario.table)
        = Ok (Returned {| schemas.access_token := token;
                          schemas.token_type := "bearer" |})).
  { rewrite run_login.
    change (result (run (postgres.PostgresUserRepository standin.env)
              (AuthService.authenticate (B:=standin.handler) "a@x.com" "Pass123!")
              scenario.table))
      with (Ok (A:=option User) (Some (postgres._to_domain standin.alice))).
    cbv beta iota.
    change (User.id (postgres._to_domain standin.alice))
      with (Some "7c9e6679-7425-40de-944b-e07fc1f90ae7").
    by rewrite Htoken. }
  eexists. split; [exact Hout|].
  destruct (login_then_current_user (B:=standin.handler) (J:=standin.backend)
    standin_lawful standin.settings standin.env standin.env scenario.table
    0%Z "a@x.com" "Pass123!" _ Hc Hout) as (row & Hrow & Hemail & _).
  exists row. split; [exact Hrow | exact Hemail].
Defined.

(** ** api/v1/dependencies.py: get_current_active_superuser *)

(** X17.  The superuser gate returns the user it is given exactly when
    that user is a superuser, and answers 403 "Not enough permissions"
    otherwise.  A user that has just been registered never passes it. *)
Theorem registered_user_is_no_superuser `{B : BcryptHandler} (env : Env)
    (table : list UserModel) (salt email password full_name : string)
    (created : User) :
  postgres.consistent table →
  result (run (postgres.PostgresUserRepository env)
            (AuthService.register salt email password full_name) table)
    = Ok created →
  dependencies.get_current_active_superuser created
    = HTTPError (dependencies.http_error 403 "Not enough permissions")
  ∧ (∀ user answer,
       dependencies.get_current_active_superuser user = Returned answer ↔
       User.is_superuser user = true ∧ answer = user).
Proof.
  intros Hc Hok.
  destruct (register_success env table salt email password full_name created Hc Hok)
    as (digest & row & _ & Hrow & -> & _).
  split.
  - unfold dependencies.get_current_active_superuser. by rewrite Hrow.
  - intros user answer. unfold dependencies.get_current_active_superuser.
    destruct (User.is_superuser user); simpl; split.
    + by intros [= <-].
    + by intros [_ ->].
    + done.
    + by intros [? _].
Qed.

Lemma registered_user_is_no_superuser_witness :
  postgres.consistent scenario.table
  ∧ ∃ created,
      result (run (postgres.PostgresUserRepository standin.env)
                (AuthService.register (B:=standin.handler)
                   "c2FsdA" "c@x.com" "Carol777" "C") scenario.table)
        = Ok created
      ∧ dependencies.get_current_active_superuser created
        = HTTPError (dependencies.http_error 403 "Not enough permissions").
Proof.
  assert (Hc : postgres.consistent scenario.table) by (split; compute_done).
  split; [exact Hc|]. eexists.
  assert (Hok : result (run (postgres.PostgresUserRepository standin.env)
                (AuthService.register (B:=standin.handler)
                   "c2FsdA" "c@x.com" "Carol777" "C") scenario.table)
        = Ok (postgres._to_domain
                {| UserModel.id := "123e4567-e89b-12d3-a456-426614174000";
                   UserModel.email := "c@x.com";
                   UserModel.hashed_password := "$2b$c2FsdA$Carol777";
                   UserModel.full_name := "C";
                   UserModel.is_active := true;
                   UserModel.is_superuser := false;
                   UserModel.created_at := 1705314600000000%Z;
                   UserModel.updated_at := 1705314600000000%Z |}))
    by reflexivity.
  split; [exact Hok|].
  exact (proj1 (registered_user_is_no_superuser (B:=standin.handler) standin.env
    scenario.table "c2FsdA" "c@x.com" "Carol777" "C" _ Hc Hok)).
Defined.

(** ** api/v1/endpoints/users.py: the pages of list_users *)

Lemma page_count_bounds (total page_size : Z) :
  (1 ≤ page_size)%Z →
  (total ≤ endpoints.page_count total page_size * page_size < total + page_size)%Z.
Proof.
  intros Hps. unfold endpoints.page_count.
  pose proof (Z.div_mod (total + page_size - 1) page_size ltac:(lia)) as Hdm.
  pose proof (Z.mod_pos_bound (total + page_size - 1) page_size ltac:(lia)) as Hm.
  nia.
Qed.

(** X18.  For a page size of at least 1, a total that is not negative and
    a page number of at least 1, the response of [list_users] carries the
    number of pages that just covers the total: enough pages for all
    items, and not one page more; there is no page exactly when there is
    no item; the offset asked of the service is not negative, it lies
    within the total exactly for the pages up to the last, and it grows by
    the page size from a page to the next.  The response has one item for
    each user the service listed. *)
Theorem list_users_pages (service_list_users : Z → Z → list User)
    (total page page_size : Z)
    (response : schemas.PaginatedResponse schemas.UserResponse) :
  (1 ≤ page_size)%Z → (0 ≤ total)%Z → (1 ≤ page)%Z →
  endpoints.list_users service_list_users total page page_size = Some response →
  let pages := schemas.total_pages response in
  let skip := endpoints.page_skip page page_size in
  (total ≤ pages * page_size < total + page_size)%Z
  ∧ (pages = 0 ↔ total = 0)%Z
  ∧ (0 ≤ skip)%Z
  ∧ (page ≤ pages ↔ skip < total)%Z
  ∧ endpoints.page_skip (page + 1) page_size = (skip + page_size)%Z
  ∧ length (schemas.items response) = length (service_list_users skip page_size)
  ∧ schemas.total response = total
  ∧ schemas.page response = page
  ∧ schemas.page_size response = page_size.
Proof.
  intros Hps Htotal Hpage. unfold endpoints.list_users.
  destruct (mapM schemas.from_domain _) as [items|] eqn:Hitems; simpl; [|done].
  intros [= <-]. simpl.
  pose proof (page_count_bounds total page_size Hps) as Hbounds.
  set (pages := endpoints.page_count total page_size) in *.
  unfold endpoints.page_skip. split_and!.
  - lia.
  - lia.
  - split; intros H0; [rewrite H0 in Hbounds; lia|].
    subst total. destruct (Z.lt_trichotomy pages 0) as [?|[?|?]]; [nia|done|nia].
  - nia.
  - split; intros Hp; nia.
  - lia.
  - symmetry. by eapply length_mapM.
  - reflexivity.
  - reflexivity.
  - reflexivity.
Qed.

Lemma list_users_pages_witness :
  ((1 ≤ 1)%Z ∧ (0 ≤ 2)%Z ∧ (1 ≤ 2)%Z)
  ∧ ∃ response,
      endpoints.list_users
        (λ skip limit,
           match postgres.list_users skip limit scenario.table with
           | Ok users => users
           | Raise _ => []
           end) 2 2 1 = Some response
      ∧ schemas.total_pages response = 2%Z
      ∧ length (schemas.items response) = 1.
Proof.
  split; [done|]. eexists.
  assert (Hr : endpoints.list_users
        (λ skip limit,
           match postgres.list_users skip limit scenario.table with
           | Ok users => users
           | Raise _ => []
           end) 2 2 1
     = Some {| schemas.items :=
                 [ {| schemas.id := "9b2c1e8a-5d47-4c3b-8f6a-2e1d0c9b8a7f";
                      schemas.email := "b@x.com";
                      schemas.full_name := "B";
                      schemas.is_active := false;
                      schemas.created_at := 1705311000000000%Z |} ];
               schemas.total := 2;
               schemas.page := 2;
               schemas.page_size := 1;
               schemas.total_pages := 2 |}) by reflexivity.
  split; [exact Hr|].
  destruct (list_users_pages _ 2 2 1 _ ltac:(done) ltac:(done) ltac:(done) Hr)
    as (_ & _ & _ & _ & _ & Hlen & _).
  split; [reflexivity | exact Hlen].
Defined.

(** ** api/v1/schemas.py: UserResponse.from_domain *)

(** X19.  Every user read from the PostgreSQL store validates as a
    [UserResponse], which shows its id, address, name, activity and
    creation time; the response is the same for two rows that differ only
    in digest, superuser flag and update time, so it does not tell the
    digest.  The user that [register] builds, which has no id yet, does not
    validate; the user that a successful registration returns does. *)
Theorem from_domain_of_stored_user `{B : BcryptHandler} (row : UserModel) :
  schemas.from_domain (postgres._to_domain row)
    = Some {| schemas.id := UserModel.id row;
              schemas.email := UserModel.email row;
              schemas.full_name := UserModel.full_name row;
              schemas.is_active := UserModel.is_active row;
              schemas.created_at := UserModel.created_at row |}
  ∧ (∀ digest superuser updated,
       schemas.from_domain
         (postgres._to_domain
            {| UserModel.id := UserModel.id row;
               UserModel.email := UserModel.email row;
               UserModel.hashed_password := digest;
               UserModel.full_name := UserModel.full_name row;
               UserModel.is_active := UserModel.is_active row;
               UserModel.is_superuser := superuser;
               UserModel.created_at := UserModel.created_at row;
               UserModel.updated_at := updated |})
       = schemas.from_domain (postgres._to_domain row))
  ∧ (∀ email hashed full_name,
       schemas.from_domain (AuthService.new_user email hashed full_name) = None)
  ∧ (∀ env table salt email password full_name created,
       postgres.consistent table →
       result (run (postgres.PostgresUserRepository env)
                 (AuthService.register salt email password full_name) table)
         = Ok created →
       schemas.from_domain created
       = Some {| schemas.id := uuid4 env;
                 schemas.email := email;
                 schemas.full_name := full_name;
                 schemas.is_active := true;
                 schemas.created_at := utcnow env |}).
Proof.
  split_and!; try done.
  intros env table salt email password full_name created Hc Hok.
  destruct (register_success env table salt email password full_name created Hc Hok)
    as (digest & r & _ & -> & -> & _).
  done.
Qed.

Lemma from_domain_of_stored_user_witness :
  postgres.consistent scenario.table
  ∧ ∃ created,
      result (run (postgres.PostgresUserRepository standin.env)
                (AuthService.register (B:=standin.handler)
                   "c2FsdA" "c@x.com" "Carol777" "C") scenario.table)
        = Ok created
      ∧ schemas.from_domain created
        = Some {| schemas.id := "123e4567-e89b-12d3-a456-426614174000";
                  schemas.email := "c@x.com";
                  schemas.full_name := "C";
                  schemas.is_active := true;
                  schemas.created_at := 1705314600000000%Z |}.
Proof.
  assert (Hc : postgres.consistent scenario.table) by (split; compute_done).
  split; [exact Hc|]. eexists.
  assert (Hok : result (run (postgres.PostgresUserRepository standin.env)
                (AuthService.register (B:=standin.handler)
                   "c2FsdA" "c@x.com" "Carol777" "C") scenario.table)
        = Ok (postgres._to_domain
                {| UserModel.id := "123e4567-e89b-12d3-a456-426614174000";
                   UserModel.email := "c@x.com";
                   UserModel.hashed_password := "$2b$c2FsdA$Carol777";
                   UserModel.full_name := "C";
                   UserModel.is_active := true;
                   UserModel.is_superuser := false;
                   UserModel.created_at := 1705314600000000%Z;
                   UserModel.updated_at := 1705314600000000%Z |}))
    by reflexivity.
  split; [exact Hok|].
  exact (proj2 (proj2 (proj2 (from_domain_of_stored_user (B:=standin.handler)
    standin.alice))) standin.env scenario.table "c2FsdA" "c@x.com" "Carol777" "C"
    _ Hc Hok).
Defined.

(** ** utils/security.py: create_access_token on any claims *)

